(** * ilive-tracker: the scraper's record extraction and the snapshot differ

    A shallow embedding of [scraper.py] (status detection, detail parsing,
    [parse_apartments], [get_apartments]), of [main.py] ([load_config],
    [find_newly_available], [check_availability], the checks of [main]) and
    of [notifier.py] (the email and its plain-text part).

    Modelling conventions.
    - A Python [str] is a [string] holding the UTF-8 bytes of the text.
      Substring tests, splitting on ASCII markers and concatenation agree
      with the code-point view on well-formed UTF-8.
    - The character classes of [str.strip], [str.lower] and of the regular
      expressions ([\s], [\S], [\d]) are modelled on the ASCII range.  Python
      also folds and classifies non-ASCII letters, spaces and digits; the
      bytes of such characters are treated here as ordinary characters.
    - A [dict] with string keys is a [gmap string _], a [set] a [gset].
      A raised [KeyError] is the [None] of an [option] result.
    - [BeautifulSoup] is outside the model: [parse_apartments] starts from the
      list of elements that [soup.find_all] returned. *)

From Stdlib Require Import Strings.String Strings.Ascii NArith DecimalString.
From Stdlib Require Import DecimalPos DecimalN.
From stdpp Require Import base option list gmap strings fin_maps sorting.

Open Scope string_scope.

(** ** Python string primitives *)

Module Str.

(** [needle in hay]. *)
Fixpoint contains (needle hay : string) : bool :=
  String.prefix needle hay ||
  match hay with
  | EmptyString => false
  | String _ hay' => contains needle hay'
  end.

(** [s[n:]] and [s[:n]]. *)
Fixpoint drop (n : nat) (s : string) : string :=
  match n, s with
  | O, _ => s
  | S _, EmptyString => EmptyString
  | S n', String _ s' => drop n' s'
  end.

Fixpoint take (n : nat) (s : string) : string :=
  match n, s with
  | O, _ => EmptyString
  | S _, EmptyString => EmptyString
  | S n', String c s' => String c (take n' s')
  end.

(** ASCII part of [str.isspace]: tab, LF, VT, FF, CR, FS, GS, RS, US and
    the space. *)
Definition isspace (c : ascii) : bool :=
  let n := N_of_ascii c in
  ((9 <=? n) && (n <=? 13) || (28 <=? n) && (n <=? 32))%N.

Definition isdigit (c : ascii) : bool :=
  let n := N_of_ascii c in ((48 <=? n) && (n <=? 57))%N.

Definition lower_char (c : ascii) : ascii :=
  let n := N_of_ascii c in
  if ((65 <=? n) && (n <=? 90))%N then ascii_of_N (n + 32) else c.

(** [s.lower()]. *)
Fixpoint lower (s : string) : string :=
  match s with
  | EmptyString => EmptyString
  | String c s' => String (lower_char c) (lower s')
  end.

(** [s.lstrip()], [s.rstrip()], [s.strip()]. *)
Fixpoint lstrip (s : string) : string :=
  match s with
  | EmptyString => EmptyString
  | String c s' => if isspace c then lstrip s' else s
  end.

Fixpoint rstrip (s : string) : string :=
  match s with
  | EmptyString => EmptyString
  | String c s' =>
      match rstrip s' with
      | EmptyString => if isspace c then EmptyString else String c EmptyString
      | r => String c r
      end
  end.

Definition strip (s : string) : string := rstrip (lstrip s).

(** [s.rstrip(chars)] for a one-character [chars]. *)
Fixpoint rstrip_char (x : ascii) (s : string) : string :=
  match s with
  | EmptyString => EmptyString
  | String c s' =>
      match rstrip_char x s' with
      | EmptyString => if Ascii.eqb c x then EmptyString else String c EmptyString
      | r => String c r
      end
  end.

(** [sep.join(l)]. *)
Definition join (sep : string) (l : list string) : string := String.concat sep l.

(** [s.partition(sep)] for a non-empty [sep]: the text before the first
    occurrence, the separator, the text after it; [(s, "", "")] when [sep]
    does not occur. *)
Fixpoint partition (sep s : string) : string * string * string :=
  if String.prefix sep s then (EmptyString, sep, drop (String.length sep) s)
  else match s with
       | EmptyString => (EmptyString, EmptyString, EmptyString)
       | String c s' =>
           let '(a, b, d) := partition sep s' in (String c a, b, d)
       end.

(** Truth value of a string: non-empty. *)
Definition truthy (s : string) : bool :=
  match s with EmptyString => false | _ => true end.

(** [int(s)] and [int(s, 16)] for a string of digits, the only arguments
    they receive in this program (the callers pass what [\d+], [[0-9]+] or
    [[0-9a-fA-F]+] matched).  CPython's bound on the length of a decimal
    digit string is not modelled. *)
Definition digit_val (c : ascii) : N :=
  let n := N_of_ascii c in
  if ((48 <=? n) && (n <=? 57))%N then n - 48
  else if ((97 <=? n) && (n <=? 102))%N then n - 87
  else if ((65 <=? n) && (n <=? 70))%N then n - 55
  else 0.

Fixpoint int_go (base acc : N) (s : string) : N :=
  match s with
  | EmptyString => acc
  | String c s' => int_go base (acc * base + digit_val c) s'
  end.

Definition int (s : string) : N := int_go 10 0 s.
Definition int16 (s : string) : N := int_go 16 0 s.

(** [f"{n}"] for a non-negative integer. *)
Definition format (n : N) : string := NilZero.string_of_uint (N.to_uint n).

End Str.

(** ** The fragment of [re] the program uses

    Every pattern of the program is an alternation of sequences of greedy,
    bounded repetitions of a character class, possibly closed by [$].  The
    matcher backtracks like Python's: a repetition first takes as many
    characters as it can and gives them back one by one; alternatives are
    tried in order; a search returns the leftmost match. *)

Module Re.

Inductive item :=
  | Rep (cls : ascii → bool) (lo : nat) (hi : option nat)
  | Eos.

Definition seq := list item.
Definition regex := list seq.

Definition chr (c : ascii) : ascii → bool := Ascii.eqb c.
Definition one (cls : ascii → bool) : item := Rep cls 1 (Some 1).
Definition opt (cls : ascii → bool) : item := Rep cls 0 (Some 1).
Definition star (cls : ascii → bool) : item := Rep cls 0 None.
Definition plus (cls : ascii → bool) : item := Rep cls 1 None.
Definition lit (s : string) : seq :=
  (λ c, one (chr c)) <$> list_ascii_of_string s.

(** Length of the longest prefix of [s] inside the class. *)
Fixpoint span (cls : ascii → bool) (s : string) : nat :=
  match s with
  | String c s' => if cls c then S (span cls s') else O
  | EmptyString => O
  end.

(** [$] without [re.MULTILINE]: the end of the text, or just before a
    final newline. *)
Definition at_eos (s : string) : bool :=
  match s with
  | EmptyString => true
  | String c EmptyString => Ascii.eqb c "010"
  | _ => false
  end.

(** Tries [f (lo + d)], [f (lo + d - 1)], ..., [f lo]. *)
Fixpoint try_down (f : nat → option nat) (lo d : nat) : option nat :=
  match f (lo + d)%nat with
  | Some r => Some r
  | None => match d with O => None | S d' => try_down f lo d' end
  end.

(** Number of characters a match of the sequence at the start of [s]
    takes. *)
Fixpoint match_seq (items : seq) (s : string) : option nat :=
  match items with
  | [] => Some O
  | Eos :: items' => if at_eos s then match_seq items' s else None
  | Rep cls lo hi :: items' =>
      let avail := span cls s in
      let n := match hi with Some h => avail `min` h | None => avail end in
      if (n <? lo)%nat then None
      else try_down
             (λ k, Nat.add k <$> match_seq items' (Str.drop k s))
             lo (n - lo)
  end.

Fixpoint match_here (re : regex) (s : string) : option nat :=
  match re with
  | [] => None
  | alt :: re' =>
      match match_seq alt s with
      | Some n => Some n
      | None => match_here re' s
      end
  end.

(** [re.search]: start and length of the leftmost match. *)
Fixpoint search (re : regex) (s : string) : option (nat * nat) :=
  match match_here re s with
  | Some n => Some (O, n)
  | None =>
      match s with
      | EmptyString => None
      | String _ s' => (λ '(i, n), (S i, n)) <$> search re s'
      end
  end.

(** [re.sub(re, repl, s)] with a function [repl] of the matched text, for
    patterns that match no empty string (all patterns below need at least
    one character).  [skip] counts the characters of the current match
    still to be passed over. *)
Fixpoint sub_go (re : regex) (repl : string → string) (skip : nat)
    (s : string) : string :=
  match s with
  | EmptyString => EmptyString
  | String c s' =>
      match skip with
      | S k => sub_go re repl k s'
      | O =>
          match match_here re s with
          | Some (S n) => repl (Str.take (S n) s) +:+ sub_go re repl n s'
          | _ => String c (sub_go re repl O s')
          end
      end
  end.

Definition sub (re : regex) (repl : string → string) (s : string) : string :=
  sub_go re repl O s.

(** [re.split(re, s)], same proviso; the head of the result is the piece
    under construction. *)
Fixpoint split_go (re : regex) (skip : nat) (s : string) : list string :=
  match s with
  | EmptyString => [EmptyString]
  | String c s' =>
      match skip with
      | S k => split_go re k s'
      | O =>
          match match_here re s with
          | Some (S n) => EmptyString :: split_go re n s'
          | _ =>
              match split_go re O s' with
              | p :: ps => String c p :: ps
              | [] => [String c EmptyString]
              end
          end
      end
  end.

Definition split (re : regex) (s : string) : list string := split_go re O s.

End Re.

(** The patterns of [scraper.py] and of [html.unescape]. *)

Definition not_cls (cls : ascii → bool) : ascii → bool := λ c, negb (cls c).

(** [<br\s*/?>] *)
Definition re_br : Re.regex :=
  [(Re.lit "<br" ++
    [Re.star Str.isspace; Re.opt (Re.chr "/"); Re.one (Re.chr ">")])%list].

(** [<[^>]+>] *)
Definition re_tag : Re.regex :=
  [[Re.one (Re.chr "<"); Re.plus (not_cls (Re.chr ">")); Re.one (Re.chr ">")]].

(** [\s*Nr\.\s*\S+\s*$] *)
Definition re_nr : Re.regex :=
  [([Re.star Str.isspace] ++ Re.lit "Nr." ++
    [Re.star Str.isspace; Re.plus (not_cls Str.isspace); Re.star Str.isspace;
     Re.Eos])%list].

(** [(\d+)] *)
Definition re_digits : Re.regex := [[Re.plus Str.isdigit]].

Definition ishex (c : ascii) : bool :=
  let n := N_of_ascii c in
  ((48 <=? n) && (n <=? 57) || (97 <=? n) && (n <=? 102) || (65 <=? n) && (n <=? 70))%N.

(** [[^\t\n\f <&#;]] *)
Definition isname (c : ascii) : bool :=
  negb (bool_decide (c ∈ ["009"; "010"; "012"; " "; "<"; "&"; "#"; ";"]%char)).

(** [&(#[0-9]+;?|#[xX][0-9a-fA-F]+;?|[^\t\n\f <&#;]{1,32};?)]; the group is
    the match without its first character. *)
Definition _charref : Re.regex :=
  [ (Re.lit "&#" ++ [Re.plus Str.isdigit; Re.opt (Re.chr ";")])%list;
    (Re.lit "&#" ++ [Re.one (λ c, Re.chr "x" c || Re.chr "X" c);
                     Re.plus ishex; Re.opt (Re.chr ";")])%list;
    (Re.lit "&" ++ [Re.Rep isname 1 (Some 32); Re.opt (Re.chr ";")])%list ].

(** ** [html.unescape] (Python standard library, [html/__init__.py]) *)

(** [chr(n)], as the UTF-8 bytes of the code point. *)
Definition chr (n : N) : string :=
  let b (k : N) := String (ascii_of_N k) EmptyString in
  (if n <? 0x80 then b n
   else if n <? 0x800 then b (0xC0 + n / 0x40) +:+ b (0x80 + n mod 0x40)
   else if n <? 0x10000 then
     b (0xE0 + n / 0x1000) +:+ b (0x80 + (n / 0x40) mod 0x40) +:+
     b (0x80 + n mod 0x40)
   else
     b (0xF0 + n / 0x40000) +:+ b (0x80 + (n / 0x1000) mod 0x40) +:+
     b (0x80 + (n / 0x40) mod 0x40) +:+ b (0x80 + n mod 0x40))%N.

(** Replacement code points of the references that HTML5 remaps. *)
Definition _invalid_charrefs : gmap N N :=
  list_to_map
    [ (0x00, 0xfffd); (0x0d, 0x0d); (0x80, 0x20ac); (0x81, 0x81);
      (0x82, 0x201a); (0x83, 0x0192); (0x84, 0x201e); (0x85, 0x2026);
      (0x86, 0x2020); (0x87, 0x2021); (0x88, 0x02c6); (0x89, 0x2030);
      (0x8a, 0x0160); (0x8b, 0x2039); (0x8c, 0x0152); (0x8d, 0x8d);
      (0x8e, 0x017d); (0x8f, 0x8f); (0x90, 0x90); (0x91, 0x2018);
      (0x92, 0x2019); (0x93, 0x201c); (0x94, 0x201d); (0x95, 0x2022);
      (0x96, 0x2013); (0x97, 0x2014); (0x98, 0x02dc); (0x99, 0x2122);
      (0x9a, 0x0161); (0x9b, 0x203a); (0x9c, 0x0153); (0x9d, 0x9d);
      (0x9e, 0x017e); (0x9f, 0x0178) ]%N.

(** [num in _invalid_codepoints]: 0x1-0x8, 0xe-0x1f, 0x7f-0x9f,
    0xfdd0-0xfdef, 0xb, and the last two code points of each of the
    seventeen planes. *)
Definition _invalid_codepoints (num : N) : bool :=
  ((1 <=? num) && (num <=? 0x8) || (0xe <=? num) && (num <=? 0x1f) ||
   (0x7f <=? num) && (num <=? 0x9f) || (0xfdd0 <=? num) && (num <=? 0xfdef) ||
   (num =? 0xb) ||
   (num <=? 0x10ffff) && (0xfffe <=? num mod 0x10000))%N.

Section Scraper.

(** The table [html.entities.html5] of named character references (more
    than two thousand entries, with and without the closing semicolon). *)
Variable _html5 : gmap string string.

(** The loop [for x in range(len(s)-1, 1, -1)] over the prefixes of [s]. *)
Fixpoint longest_name (s : string) (x : nat) : option string :=
  match x with
  | S (S _ as x') =>
      match _html5 !! Str.take x s with
      | Some v => Some (v +:+ Str.drop x s)
      | None => longest_name s x'
      end
  | _ => None
  end.

(** [s] is the group of a [_charref] match. *)
Definition _replace_charref (s : string) : string :=
  match s with
  | String "#" rest =>
      let num :=
        match rest with
        | String c ds =>
            if Ascii.eqb c "x" || Ascii.eqb c "X"
            then Str.int16 (Str.rstrip_char ";" ds)
            else Str.int (Str.rstrip_char ";" rest)
        | EmptyString => 0%N
        end in
      match _invalid_charrefs !! num with
      | Some cp => chr cp
      | None =>
          if ((0xD800 <=? num) && (num <=? 0xDFFF) || (0x10FFFF <? num))%N
          then chr 0xFFFD
          else if _invalid_codepoints num then EmptyString
          else chr num
      end
  | _ =>
      match _html5 !! s with
      | Some v => v
      | None =>
          match longest_name s (String.length s - 1) with
          | Some r => r
          | None => "&" +:+ s
          end
      end
  end.

Definition unescape (s : string) : string :=
  if negb (Str.contains "&" s) then s
  else Re.sub _charref (λ m, _replace_charref (Str.drop 1 m)) s.

(** ** [scraper.py] *)

Definition STATUS_FREE : string := "free".
Definition STATUS_RESERVED : string := "reserved".
Definition STATUS_OCCUPIED : string := "occupied".
Definition STATUS_UNKNOWN : string := "unknown".

Definition _detect_status (classes : list string) : string :=
  let class_str := Str.lower (Str.join " " classes) in
  if Str.contains "free" class_str then STATUS_FREE
  else if Str.contains "reserved" class_str then STATUS_RESERVED
  else if Str.contains "occupied" class_str then STATUS_OCCUPIED
  else STATUS_UNKNOWN.

(** [html_lib.unescape(html_lib.unescape(data_text))], written out in both
    functions below. *)
Definition double_unescape (data_text : string) : string :=
  unescape (unescape data_text).

Definition _detect_status_from_data_text (data_text : string) : string :=
  if negb (Str.truthy data_text) then STATUS_UNKNOWN
  else
    let text := double_unescape data_text in
    if Str.contains "unit_free" text then STATUS_FREE
    else if Str.contains "unit_reserved" text then STATUS_RESERVED
    else if Str.contains "unit_occupied" text then STATUS_OCCUPIED
    else STATUS_UNKNOWN.

(** One turn of the loop over [parts]. *)
Definition details_step (details : gmap string string) (part : string)
    : gmap string string :=
  let clean := Str.strip (Re.sub re_tag (λ _, "") part) in
  if negb (Str.truthy clean) then details
  else if Str.contains ":" clean then
    let '(key, _, val) := Str.partition ":" clean in
    <[Str.strip key := Str.strip val]> details
  else details.

Definition _parse_data_text (data_text : string) : gmap string string :=
  if negb (Str.truthy data_text) then ∅
  else
    let text := double_unescape data_text in
    let parts := Re.split re_br text in
    foldl details_step ∅ parts.

(** An element of [soup.find_all("a", class_="apartment", href="#detail")]:
    its stripped text and the three attributes the parser reads; an absent
    attribute is [None]. *)
Record element := {
  get_text : string;
  attr_class : option (list string);
  attr_title : option string;
  attr_data_text : option string;
}.

(** The numeric value of a detail string: 0 when the string is empty or
    holds no digit, else the first run of digits. *)
Definition amount (value_str : string) : N :=
  if Str.truthy value_str then
    match Re.search re_digits value_str with
    | Some (i, n) => Str.int (Str.take n (Str.drop i value_str))
    | None => 0%N
    end
  else 0%N.

(** [f"{n} €" if n else ""] *)
Definition euro (n : N) : string :=
  if (n =? 0)%N then "" else Str.format n +:+ " €".

(** [apt_type]: the title without a trailing "Nr. <token>". *)
Definition apt_type_of (title_attr : option string) : string :=
  let title := Str.strip (default "" title_attr) in
  Str.strip (Re.sub re_nr (λ _, "") title).

(** [status]: the CSS classes first, the [data-text] content as the
    fallback. *)
Definition status_of (classes : list string) (data_text : string) : string :=
  let status := _detect_status classes in
  if decide (status = STATUS_UNKNOWN)
  then _detect_status_from_data_text data_text
  else status.

(** The body of the loop of [parse_apartments] after the duplicate test:
    the info dict of one listing. *)
Definition apartment_info (link : element) : gmap string string :=
  let apt_number := get_text link in
  let classes := default [] (attr_class link) in
  let data_text := default "" (attr_data_text link) in
  let apt_type := apt_type_of (attr_title link) in
  let status := status_of classes data_text in
  let details := _parse_data_text data_text in
  let kaltmiete_str := default "" (details !! "Miethöhe") in
  let nebenkosten_str := default "" (details !! "Nebenkosten") in
  let kaltmiete := amount kaltmiete_str in
  let nebenkosten := amount nebenkosten_str in
  let total := (kaltmiete + nebenkosten)%N in
  list_to_map
    [ ("name", "Apartment " +:+ apt_number);
      ("type", if Str.truthy apt_type then apt_type else "Unknown");
      ("status", status);
      ("size", default "" (details !! "Größe"));
      ("kaltmiete", euro kaltmiete);
      ("nebenkosten", euro nebenkosten);
      ("total", euro total) ].

(** One turn of the loop over [apt_links]; the state is [seen] and
    [apartments]. *)
Definition parse_step (st : gset string * gmap string (gmap string string))
    (link : element) : gset string * gmap string (gmap string string) :=
  let '(seen, apartments) := st in
  let apt_number := get_text link in
  if negb (Str.truthy apt_number) || bool_decide (apt_number ∈ seen) then st
  else ({[apt_number]} ∪ seen, <[apt_number := apartment_info link]> apartments).

Definition parse_apartments (apt_links : list element)
    : gmap string (gmap string string) :=
  (foldl parse_step (∅, ∅) apt_links).2.

End Scraper.

(** ** [main.py]: the snapshot differ *)

(** [info.get("rent")] as a condition: present and non-empty. *)
Definition has_rent (info : gmap string string) : bool :=
  match info !! "rent" with
  | Some rent => Str.truthy rent
  | None => false
  end.

(** The value of [was_unavailable] at the end of a turn of the loop.  An
    empty dict is false as a condition, like a missing entry. *)
Definition was_unavailable (previous : gmap string (gmap string string))
    (apt_id : string) : bool :=
  match previous !! apt_id with
  | Some prev_info =>
      if bool_decide (prev_info = ∅) then true
      else bool_decide
             (prev_info !! "status" ∈ [Some STATUS_OCCUPIED; Some STATUS_RESERVED])
  | None => true
  end.

(** The value of [is_available]; [info["status"]] raises [KeyError] on a
    dict without that key. *)
Definition is_available (info : gmap string string) : option bool :=
  status ← info !! "status";
  let is_available := bool_decide (status = STATUS_FREE) in
  let is_available :=
    if bool_decide (status = "unknown") && has_rent info then true
    else is_available in
  Some is_available.

(** One turn of the loop over [current.items()]. *)
Definition diff_step (previous : gmap string (gmap string string))
    (apt_id : string) (info : gmap string string)
    (acc : option (gmap string (gmap string string)))
    : option (gmap string (gmap string string)) :=
  newly_available ← acc;
  available ← is_available info;
  Some (if available && was_unavailable previous apt_id
        then <[apt_id := info]> newly_available
        else newly_available).

Definition find_newly_available
    (previous : option (gmap string (gmap string string)))
    (current : gmap string (gmap string string))
    : option (gmap string (gmap string string)) :=
  match previous with
  | None => Some ∅
  | Some previous => map_fold (diff_step previous) (Some ∅) current
  end.

(** Every record of the snapshot has a [status] entry, as the data model
    requires and as [parse_apartments] writes them. *)
Definition records_have_status (S : gmap string (gmap string string)) : bool :=
  bool_decide (map_Forall (λ _ info, is_Some (info !! "status")) S).

(** ** Sample data *)

(** A few entries of [html.entities.html5]. *)
Definition html5_sample : gmap string string :=
  list_to_map
    [ ("amp;", "&"); ("amp", "&"); ("lt;", "<"); ("lt", "<");
      ("gt;", ">"); ("gt", ">"); ("nbsp;", chr 0xa0); ("nbsp", chr 0xa0);
      ("euro;", "€"); ("ouml;", "ö"); ("ouml", "ö");
      ("szlig;", "ß"); ("szlig", "ß"); ("sup2;", "²"); ("sup2", "²") ].

(** A listing as the page has them. *)
Definition link_0_1 : element :=
  {| get_text := "0.1";
     attr_class := Some ["apartment"];
     attr_title := Some "Komfort-Apartment Nr. 0.1";
     attr_data_text :=
       Some ("Erdgeschoss&lt;br&gt;mit Terrasse&lt;br&gt;Bett: 120 x 200 cm" +:+
             "&lt;br&gt;Größe: 24.19 m²&lt;br&gt;&lt;br&gt;Miethöhe: 551 €" +:+
             "&lt;br&gt;Nebenkosten: 167 €&lt;br&gt;Status: " +:+
             "&lt;span class=unit_occupied&gt;vermietet&lt;/span&gt;") |}.


(** The same listing reserved, then without a status class or marker but
    with its rent. *)
Definition link_B_reserved : element :=
  {| get_text := "B";
     attr_class := Some ["apartment"; "reserved"];
     attr_title := Some "Studio Nr. B";
     attr_data_text := Some "Miethöhe: 551 €<br>Nebenkosten: 167 €" |}.

Definition link_B_priced : element :=
  {| get_text := "B";
     attr_class := Some ["apartment"];
     attr_title := Some "Studio Nr. B";
     attr_data_text := Some "Miethöhe: 551 €<br>Nebenkosten: 167 €" |}.


Definition link_C_free : element :=
  {| get_text := "C";
     attr_class := Some ["apartment"; "free"];
     attr_title := None;
     attr_data_text := None |}.


(** ** The specification's wording, for comparison with the code *)

(** The test [is_available and was_unavailable] of the differ, as a
    predicate on the entries of [current]. *)
Definition newly (previous : gmap string (gmap string string))
    (entry : string * gmap string string) : Prop :=
  is_available entry.2 = Some true ∧ was_unavailable previous entry.1 = true.

(** The first element of the page whose text is [apt_number]. *)
Fixpoint first_link (apt_number : string) (apt_links : list element)
    : option element :=
  match apt_links with
  | [] => None
  | link :: rest =>
      if decide (get_text link = apt_number) then Some link
      else first_link apt_number rest
  end.

(** "The class-token set contains (case-insensitively, as a substring)
    [word]": some token does. *)
Definition some_token_contains (word : string) (classes : list string) : bool :=
  existsb (λ token, Str.contains word (Str.lower token)) classes.




(** The availability test as the specification words it: Free, or Unknown
    with a non-empty cold rent. *)
Definition available_as_specified (info : gmap string string) : bool :=
  bool_decide (info !! "status" = Some STATUS_FREE) ||
  bool_decide (info !! "status" = Some STATUS_UNKNOWN) &&
  Str.truthy (default "" (info !! "kaltmiete")).

(** Every character of [s] is in the class. *)
Fixpoint all_chars (cls : ascii → bool) (s : string) : bool :=
  match s with
  | EmptyString => true
  | String c s' => cls c && all_chars cls s'
  end.

(** A title that consists of the suffix only: "Nr.", optional spaces and a
    token without spaces, possibly with spaces around the whole. *)
Definition only_nr_suffix (title : string) : Prop :=
  ∃ lead gap token trail,
    all_chars Str.isspace lead = true ∧ all_chars Str.isspace gap = true ∧
    all_chars (not_cls Str.isspace) token = true ∧ token ≠ "" ∧
    all_chars Str.isspace trail = true ∧
    title = lead +:+ "Nr." +:+ gap +:+ token +:+ trail.

(** ** Further library functions *)

Module PyStr.

(** [s.replace(old, new)] for a non-empty [old]: the occurrences are taken
    from left to right and do not overlap.  [skip] counts the characters of
    the current occurrence still to be passed over. *)
Fixpoint replace_go (old new : string) (skip : nat) (s : string) : string :=
  match s with
  | EmptyString => EmptyString
  | String c s' =>
      match skip with
      | S k => replace_go old new k s'
      | O =>
          if String.prefix old s
          then new +:+ replace_go old new (String.length old - 1) s'
          else String c (replace_go old new O s')
      end
  end.

Definition replace (old new s : string) : string := replace_go old new O s.

(** The digits of a decimal literal: groups of digits separated by single
    underscores. *)
Fixpoint literal_go (acc : N) (after_digit : bool) (s : string) : option N :=
  match s with
  | EmptyString => if after_digit then Some acc else None
  | String c s' =>
      if Str.isdigit c then literal_go (acc * 10 + Str.digit_val c) true s'
      else if Ascii.eqb c "_" && after_digit then literal_go acc false s'
      else None
  end.

(** [int(s)] for an arbitrary string: surrounding whitespace, a sign, a
    decimal literal of ASCII digits; [None] is [ValueError].  As for
    [Str.int], the bound on the number of digits is not modelled. *)
Definition int (s : string) : option Z :=
  match Str.strip s with
  | String "-" digits => n ← literal_go 0 false digits; Some (- Z.of_N n)%Z
  | String "+" digits => n ← literal_go 0 false digits; Some (Z.of_N n)
  | digits => n ← literal_go 0 false digits; Some (Z.of_N n)
  end.

End PyStr.

Definition dq : string := String (ascii_of_nat 34) EmptyString.
Definition nl : string := String "010" EmptyString.

(** ** [main.py]: configuration *)

(** The values a config entry can hold. *)
Inductive pyval :=
  | PyNone
  | PyStr (s : string)
  | PyInt (n : Z).





(** ** [notifier.py] *)

(** [sorted(d.items())]: the entries by ascending key.  The keys of a dict
    differ, so the values are never compared. *)
Definition sorted_items {A} (d : gmap string A) : list (string * A) :=
  merge_sort (λ a b : string * A, String.le a.1 b.1) (map_to_list d).

Definition td : string :=
  "padding: 8px; border: 1px solid #ccc; text-align: left;".

(** The text one turn of the loop adds to [rows]; [info['type']] raises
    [KeyError]. *)
Definition email_row (entry : string * gmap string string) : option string :=
  let '(apt_id, info) := entry in
  let size := default "" (info !! "size") in
  let kaltmiete := default "" (info !! "kaltmiete") in
  let nebenkosten := default "" (info !! "nebenkosten") in
  let total := default "N/A" (info !! "total") in
  type ← info !! "type";
  Some ("<tr>" +:+
        "<td style=" +:+ dq +:+ td +:+ dq +:+ ">" +:+ apt_id +:+ "</td>" +:+
        "<td style=" +:+ dq +:+ td +:+ dq +:+ ">" +:+ type +:+ "</td>" +:+
        "<td style=" +:+ dq +:+ td +:+ dq +:+ ">" +:+ size +:+ "</td>" +:+
        "<td style=" +:+ dq +:+ td +:+ dq +:+ ">" +:+ kaltmiete +:+ "</td>" +:+
        "<td style=" +:+ dq +:+ td +:+ dq +:+ ">" +:+ nebenkosten +:+ "</td>" +:+
        "<td style=" +:+ dq +:+ td +:+ dq +:+ "><strong>" +:+ total +:+
        "</strong></td>" +:+
        "</tr>" +:+ nl).

(** The template of [body_html] up to the first [{count}]. *)
Definition body_head : string :=
  String.concat nl
    [ "";
      "    <html>";
      "    <body style=" +:+ dq +:+ "font-family: Arial, sans-serif; max-width: 600px;" +:+ dq +:+ ">";
      "        <h2 style=" +:+ dq +:+ "color: #2e7d32;" +:+ dq +:+ ">Room Available at Campus Living Darmstadt!</h2>";
      "        <p>" ].

(** From there to [{rows}]. *)
Definition body_middle : string :=
  String.concat nl
    [ " apartment(s) just became available:</p>";
      "        <table style=" +:+ dq +:+ "border-collapse: collapse; width: 100%;" +:+ dq +:+ ">";
      "            <tr style=" +:+ dq +:+ "background: #e8f5e9;" +:+ dq +:+ ">";
      "                <th style=" +:+ dq +:+ "padding: 8px; border: 1px solid #ccc; text-align: left;" +:+ dq +:+ ">Apartment</th>";
      "                <th style=" +:+ dq +:+ "padding: 8px; border: 1px solid #ccc; text-align: left;" +:+ dq +:+ ">Type</th>";
      "                <th style=" +:+ dq +:+ "padding: 8px; border: 1px solid #ccc; text-align: left;" +:+ dq +:+ ">Size</th>";
      "                <th style=" +:+ dq +:+ "padding: 8px; border: 1px solid #ccc; text-align: left;" +:+ dq +:+ ">Kaltmiete</th>";
      "                <th style=" +:+ dq +:+ "padding: 8px; border: 1px solid #ccc; text-align: left;" +:+ dq +:+ ">Nebenkosten</th>";
      "                <th style=" +:+ dq +:+ "padding: 8px; border: 1px solid #ccc; text-align: left;" +:+ dq +:+ ">Total</th>";
      "            </tr>";
      "            " ].

(** After [{rows}]. *)
Definition body_tail : string :=
  String.concat nl
    [ "";
      "        </table>";
      "        <p style=" +:+ dq +:+ "margin-top: 16px;" +:+ dq +:+ ">";
      "            <a href=" +:+ dq +:+ "https://www.campus-living-darmstadt.de/mieten" +:+ dq;
      "               style=" +:+ dq +:+ "background: #2e7d32; color: white; padding: 10px 20px; text-decoration: none; border-radius: 4px;" +:+ dq +:+ ">";
      "                View on Website";
      "            </a>";
      "        </p>";
      "        <p style=" +:+ dq +:+ "color: #666; font-size: 12px; margin-top: 24px;" +:+ dq +:+ ">";
      "            This alert was sent by Ilive Tracker.";
      "        </p>";
      "    </body>";
      "    </html>";
      "    " ].

(** Subject and HTML body; [None] is the [KeyError] of a record without
    type. *)
Definition build_availability_email
    (newly_free_apartments : gmap string (gmap string string))
    : option (string * string) :=
  let count := Str.format (N.of_nat (size newly_free_apartments)) in
  let subject :=
    "🏠 " +:+ count +:+
    " apartment(s) now available at Campus Living Darmstadt!" in
  rows ← mapM email_row (sorted_items newly_free_apartments);
  let rows := String.concat "" rows in
  Some (subject, body_head +:+ count +:+ body_middle +:+ rows +:+ body_tail).

(** The plain-text fallback that [send_email] derives from the body. *)
Definition plain_text (body_html : string) : string :=
  Re.sub re_tag (λ _, "")
    (PyStr.replace "</li>" nl (PyStr.replace "<br>" nl body_html)).

(** What [send_email] hands to the SMTP server: its arguments and the two
    parts of the message. *)
Record message := {
  smtp_host : pyval;
  smtp_port : pyval;
  email_from : pyval;
  email_password : pyval;
  email_to : pyval;
  msg_subject : string;
  msg_plain : string;
  msg_html : string;
}.

(** [int(x)] for a config value: [None] is the [TypeError] of [int(None)]
    or the [ValueError] of a text. *)
Definition py_int (x : pyval) : option Z :=
  match x with
  | PyNone => None
  | PyStr s => PyStr.int s
  | PyInt n => Some n
  end.

(** How [notify_available] ends; an exception of the SMTP exchange, of
    [int(smtp_port)], a [KeyError] of the config or of the email builder all
    leave it raised. *)
Inductive notified :=
  | NothingToSend
  | Sent (m : message)
  | NotifyRaised.

(** [deliver] is the SMTP exchange: [false] when it raises.  [send_email]
    evaluates [int(smtp_port)] before it opens the connection. *)
Definition notify_available (config : gmap string pyval)
    (newly_free_apartments : gmap string (gmap string string))
    (deliver : message → bool) : notified :=
  if decide (newly_free_apartments = ∅) then NothingToSend
  else
    match build_availability_email newly_free_apartments with
    | None => NotifyRaised
    | Some (subject, body_html) =>
        match config !! "SMTP_HOST", config !! "SMTP_PORT",
              config !! "EMAIL_FROM", config !! "EMAIL_PASSWORD",
              config !! "EMAIL_TO" with
        | Some host, Some port, Some from, Some password, Some to =>
            let m := {| smtp_host := host; smtp_port := port;
                        email_from := from; email_password := password;
                        email_to := to; msg_subject := subject;
                        msg_plain := plain_text body_html;
                        msg_html := body_html |} in
            match py_int port with
            | None => NotifyRaised
            | Some _ => if deliver m then Sent m else NotifyRaised
            end
        | _, _, _, _, _ => NotifyRaised
        end
    end.

(** ** [main.py]: one check *)

(** What [get_apartments()] gives: an exception of the fetch, or the parsed
    snapshot. *)
Inductive fetched :=
  | FetchError
  | Fetched (apartments : gmap string (gmap string string)).

(** The counting expressions [sum(1 for a in apartments.values() if
    a["status"] == status)]; [None] is the [KeyError] of a record without
    status. *)
Definition count_status (status : string)
    (apartments : gmap string (gmap string string)) : option nat :=
  statuses ← mapM (λ a : gmap string string, a !! "status")
                  (map_to_list apartments).*2;
  Some (length (filter (λ s, s = status) statuses)).

(** The listing of the apartments with a given status reads [info['name']]
    and [info['type']] of each of them.  The printed text is not modelled. *)
Definition log_listing (status : string)
    (apartments : gmap string (gmap string string)) : option unit :=
  let selected := filter (λ e : string * gmap string string,
                            e.2 !! "status" = Some status) apartments in
  _ ← mapM (λ e : string * gmap string string,
              name ← e.2 !! "name"; type ← e.2 !! "type"; Some (name, type))
           (sorted_items selected);
  Some ().

(** The listing of the delta reads the same two entries of every record. *)
Definition log_delta (newly_available : gmap string (gmap string string))
    : option unit :=
  _ ← mapM (λ e : string * gmap string string,
              name ← e.2 !! "name"; type ← e.2 !! "type"; Some (name, type))
           (map_to_list newly_available);
  Some ().

(** The counting and the two listings that precede the diff; neither is
    inside a [try]. *)
Definition log_summary (apartments : gmap string (gmap string string))
    : option unit :=
  free_count ← count_status STATUS_FREE apartments;
  unknown_count ← count_status "unknown" apartments;
  reserved_count ← count_status STATUS_RESERVED apartments;
  occupied_count ← count_status STATUS_OCCUPIED apartments;
  _ ← log_listing STATUS_FREE apartments;
  log_listing STATUS_RESERVED apartments.

(** The effects of one call of [check_availability]: whether an exception
    left it, the content of the state file afterwards ([None]: no file), and
    the message sent. *)
Record outcome := {
  raised : bool;
  state_file : option (gmap string (gmap string string));
  sent : option message;
}.

(** [state] is the content of the state file before the call: [load_state]
    returns it, [save_state] replaces it.  Writing the file and reading it
    back returns the snapshot written. *)
Definition check_availability (config : gmap string pyval) (first_run : bool)
    (fetch : fetched) (deliver : message → bool)
    (state : option (gmap string (gmap string string))) : outcome :=
  let unchanged := {| raised := false; state_file := state; sent := None |} in
  let crash := {| raised := true; state_file := state; sent := None |} in
  match fetch with
  | FetchError => unchanged
  | Fetched apartments =>
      if decide (apartments = ∅) then unchanged
      else
        match log_summary apartments with
        | None => crash
        | Some _ =>
            if first_run
            then {| raised := false; state_file := Some apartments;
                    sent := None |}
            else
              let previous := state in
              match find_newly_available previous apartments with
              | None => crash
              | Some newly_available =>
                  if decide (newly_available = ∅)
                  then {| raised := false; state_file := Some apartments;
                          sent := None |}
                  else
                    match log_delta newly_available with
                    | None => crash
                    | Some _ =>
                        let result :=
                          notify_available config newly_available deliver in
                        {| raised := false; state_file := Some apartments;
                           sent := match result with
                                   | Sent m => Some m
                                   | _ => None
                                   end |}
                    end
              end
        end
  end.

(** ** [scraper.py]: the entry point *)


(** ** [main.py]: the run *)

(** The effects of a run of checks: whether an exception ended it, the
    content of the state file at the end, the messages sent, in order. *)
Record run := {
  crashed : bool;
  final_state : option (gmap string (gmap string string));
  outbox : list message;
}.

(** The checks of a run one after the other; each meets the result of its
    fetch and its SMTP exchange, and reads the state file that the check
    before it left.  The first check gets [first_run], the scheduled ones
    the default [first_run=False].  An exception that leaves a check is
    caught nowhere and ends the run.  The waiting between the checks is not
    modelled. *)
Fixpoint checks (config : gmap string pyval) (first_run : bool)
    (ticks : list (fetched * (message → bool)))
    (state : option (gmap string (gmap string string))) : run :=
  match ticks with
  | [] => {| crashed := false; final_state := state; outbox := [] |}
  | (fetch, deliver) :: ticks =>
      let o := check_availability config first_run fetch deliver state in
      if raised o
      then {| crashed := true; final_state := state_file o; outbox := [] |}
      else
        let r := checks config false ticks (state_file o) in
        {| crashed := crashed r; final_state := final_state r;
           outbox := (option_list (sent o) ++ outbox r)%list |}
  end.



(** ** Predicates for the statements about texts *)

(** The text is empty or starts outside the class. *)
Definition starts_outside (cls : ascii → bool) (s : string) : bool :=
  match s with
  | EmptyString => true
  | String c _ => negb (cls c)
  end.

(** The tag pattern [<[^>]+>] matches nowhere in the text. *)
Definition tag_free (s : string) : Prop := Re.search re_tag s = None.

(** The record has the two entries that the log lines read. *)
Definition named (info : gmap string string) : Prop :=
  is_Some (info !! "name") ∧ is_Some (info !! "type").



(** The state file after a check that completed: the snapshot fetched when
    it has listings. *)
Definition next_state (state : option (gmap string (gmap string string)))
    (fetch : fetched) : option (gmap string (gmap string string)) :=
  match fetch with
  | FetchError => state
  | Fetched apartments => if decide (apartments = ∅) then state
                          else Some apartments
  end.

(** The last snapshot with listings among the fetches, or [state] when
    there is none. *)
Definition last_page (fetches : list fetched)
    (state : option (gmap string (gmap string string)))
    : option (gmap string (gmap string string)) :=
  foldl next_state state fetches.

(** ** Further sample data *)

(** Apartment 0.1 of the sample page once it is free. *)
Definition link_0_1_free : element :=
  {| get_text := "0.1";
     attr_class := Some ["apartment"; "free"];
     attr_title := Some "Komfort-Apartment Nr. 0.1";
     attr_data_text := Some "Miethöhe: 551 €<br>Nebenkosten: 167 €" |}.


Definition sample_config : gmap string pyval :=
  list_to_map
    [ ("SMTP_HOST", PyStr "smtp.example.org"); ("SMTP_PORT", PyStr "587");
      ("EMAIL_FROM", PyStr "tracker@example.org");
      ("EMAIL_PASSWORD", PyStr "secret");
      ("EMAIL_TO", PyStr "me@example.org");
      ("CHECK_INTERVAL_MINUTES", PyInt 10) ].



(** A check that finds apartment 0.1 free after it was occupied, with a
    server that accepts the message. *)
Definition sample_check : outcome :=
  check_availability sample_config false
    (Fetched (parse_apartments html5_sample [link_0_1_free]))
    (λ _, true)
    (Some (parse_apartments html5_sample [link_0_1])).

(** * Properties *)

(** ** The library models on sample inputs *)

Example re_br_ex :
  Re.split re_br "Erdgeschoss<br>mit Terrasse<br />x<BR>y<br/>" =
  ["Erdgeschoss"; "mit Terrasse"; "x<BR>y"; ""].
Proof. reflexivity. Qed.

Example re_tag_ex :
  Re.sub re_tag (λ _, "") "Status: <span class=unit_occupied>vermietet</span> <>" =
  "Status: vermietet <>".
Proof. reflexivity. Qed.

Example re_nr_ex :
  Re.sub re_nr (λ _, "") "Komfort-Apartment Nr. 0.1" = "Komfort-Apartment" ∧
  Re.sub re_nr (λ _, "") "Nr. 1 Nr. 2" = "Nr. 1" ∧
  Re.sub re_nr (λ _, "") "Nr.Nr.x" = "" ∧
  Re.sub re_nr (λ _, "") "Studio Nr. 12 b" = "Studio Nr. 12 b".
Proof. repeat split; reflexivity. Qed.

Example re_digits_ex :
  Re.search re_digits "ca. 695 € (12)" = Some (4, 3)%nat ∧
  Re.search re_digits "auf Anfrage" = None.
Proof. split; reflexivity. Qed.

Example link_0_1_info :
  apartment_info html5_sample link_0_1 =
  list_to_map
    [ ("name", "Apartment 0.1"); ("type", "Komfort-Apartment");
      ("status", "occupied"); ("size", "24.19 m²"); ("kaltmiete", "551 €");
      ("nebenkosten", "167 €"); ("total", "718 €") ].
Proof. vm_compute. reflexivity. Qed.

Example records_have_status_ex :
  records_have_status (parse_apartments html5_sample [link_0_1]) = true.
Proof. vm_compute. reflexivity. Qed.

(** ** The differ *)

Section Differ.

Implicit Types previous current S : gmap string (gmap string string).
Implicit Types info : gmap string string.

Lemma records_have_status_lookup S apt_id info :
  records_have_status S = true → S !! apt_id = Some info →
  ∃ status, info !! "status" = Some status.
Proof.
  intros HS Hinfo. apply bool_decide_eq_true in HS.
  exact (HS apt_id info Hinfo).
Qed.

Lemma is_available_status info status :
  info !! "status" = Some status →
  is_available info =
  Some (if bool_decide (status = "unknown") && has_rent info then true
        else bool_decide (status = STATUS_FREE)).
Proof. intros Hs. unfold is_available. rewrite Hs. reflexivity. Qed.

Lemma is_available_KeyError info :
  info !! "status" = None → is_available info = None.
Proof. intros Hs. unfold is_available. rewrite Hs. reflexivity. Qed.

(** With a previous snapshot, the loop computes the sub-map of [current]
    that passes the test; it completes whenever every record has a status. *)
Lemma find_newly_available_filter previous current :
  records_have_status current = true →
  find_newly_available (Some previous) current =
  Some (filter (newly previous) current).
Proof.
  intros HS. apply bool_decide_eq_true in HS. revert HS. simpl.
  apply (map_fold_weak_ind
           (λ r m, map_Forall (λ _ info, is_Some (info !! "status")) m →
                   r = Some (filter (newly previous) m))).
  - intros _. by rewrite map_filter_empty.
  - intros apt_id info m r Hfresh IH Hall.
    apply map_Forall_insert in Hall as [[status Hstatus] Hm]; [|done].
    rewrite (IH Hm). unfold diff_step. simpl.
    destruct (is_available info) as [available|] eqn:Hav;
      [|by rewrite (is_available_status _ _ Hstatus) in Hav].
    simpl. f_equal.
    destruct (available && was_unavailable previous apt_id) eqn:Htest.
    + apply andb_true_iff in Htest as [-> Hwas].
      by rewrite map_filter_insert_True.
    + rewrite map_filter_insert_not'; [done| |by rewrite Hfresh].
      intros [Ha Hw]. simpl in Ha, Hw. rewrite Hav in Ha.
      injection Ha as ->. by rewrite Hw in Htest.
Qed.

(** A record without status makes the loop raise. *)
Lemma find_newly_available_KeyError previous current :
  records_have_status current = false →
  find_newly_available (Some previous) current = None.
Proof.
  intros HS. apply bool_decide_eq_false in HS. revert HS. simpl.
  apply (map_fold_weak_ind
           (λ r m, ¬ map_Forall (λ _ info, is_Some (info !! "status")) m →
                   r = None)).
  - intros H. destruct H. apply map_Forall_empty.
  - intros apt_id info m r Hfresh IH Hall.
    unfold diff_step. destruct r as [acc|]; [|done]. simpl.
    destruct (info !! "status") as [status|] eqn:Hstatus.
    + exfalso. apply Hall. apply map_Forall_insert; [done|]. split; [by eexists|].
      destruct (decide (map_Forall (λ _ i, is_Some (i !! "status")) m)) as [|Hn];
        [done|]. by specialize (IH Hn).
    + by rewrite (is_available_KeyError _ Hstatus).
Qed.

Lemma find_newly_available_lookup previous current delta apt_id info :
  find_newly_available (Some previous) current = Some delta →
  delta !! apt_id = Some info ↔
  current !! apt_id = Some info ∧ is_available info = Some true ∧
  was_unavailable previous apt_id = true.
Proof.
  intros Hdelta.
  destruct (records_have_status current) eqn:HS.
  - rewrite (find_newly_available_filter _ _ HS) in Hdelta.
    injection Hdelta as <-. by rewrite map_lookup_filter_Some.
  - by rewrite (find_newly_available_KeyError _ _ HS) in Hdelta.
Qed.

Lemma was_unavailable_absent previous apt_id :
  previous !! apt_id = None → was_unavailable previous apt_id = true.
Proof. intros H. unfold was_unavailable. by rewrite H. Qed.

Lemma was_unavailable_present previous apt_id prev_info :
  previous !! apt_id = Some prev_info → prev_info ≠ ∅ →
  was_unavailable previous apt_id = true ↔
  prev_info !! "status" = Some STATUS_OCCUPIED ∨
  prev_info !! "status" = Some STATUS_RESERVED.
Proof.
  intros Hp Hne. unfold was_unavailable. rewrite Hp.
  rewrite bool_decide_eq_false_2 by done.
  rewrite bool_decide_eq_true, !elem_of_cons, elem_of_nil. tauto.
Qed.

Lemma was_unavailable_status previous apt_id prev_info status :
  previous !! apt_id = Some prev_info → prev_info !! "status" = Some status →
  was_unavailable previous apt_id = true ↔
  status = STATUS_OCCUPIED ∨ status = STATUS_RESERVED.
Proof.
  intros Hp Hs. unfold was_unavailable. rewrite Hp.
  rewrite bool_decide_eq_false_2 by (intros ->; by rewrite lookup_empty in Hs).
  rewrite Hs, bool_decide_eq_true, !elem_of_cons, elem_of_nil.
  split.
  - intros [H|[H|[]]]; injection H as ->; auto.
  - intros [-> | ->]; auto.
Qed.

End Differ.

(** ** Claims about the differ *)

(** C3.  On the first run, when no previous snapshot exists, the differ
    returns the empty delta for every current snapshot. *)
Theorem first_run_delta_empty (current : gmap string (gmap string string)) :
  find_newly_available None current = Some ∅.
Proof. reflexivity. Qed.

(** C4.  Diffing a snapshot against itself gives the empty delta; and an
    apartment that was free or unknown before and is free now is not in the
    delta. *)
Theorem diff_self_empty (S : gmap string (gmap string string)) :
  records_have_status S = true →
  find_newly_available (Some S) S = Some ∅ ∧
  ∀ previous apt_id prev_info info,
    previous !! apt_id = Some prev_info →
    prev_info !! "status" = Some STATUS_FREE ∨
    prev_info !! "status" = Some STATUS_UNKNOWN →
    S !! apt_id = Some info →
    info !! "status" = Some STATUS_FREE →
    ∃ delta, find_newly_available (Some previous) S = Some delta ∧
             delta !! apt_id = None.
Proof.
  intros HS. split.
  - rewrite (find_newly_available_filter _ _ HS). f_equal.
    apply map_empty_filter. intros apt_id info Hinfo [Hav Hwas].
    simpl in Hav, Hwas.
    destruct (records_have_status_lookup _ _ _ HS Hinfo) as [status Hstatus].
    apply (was_unavailable_status _ _ _ _ Hinfo Hstatus) in Hwas.
    rewrite (is_available_status _ _ Hstatus) in Hav.
    destruct Hwas as [-> | ->]; by vm_compute in Hav.
  - intros previous apt_id prev_info info Hprev Hpstatus Hinfo Hstatus.
    rewrite (find_newly_available_filter _ _ HS). eexists. split; [done|].
    apply map_lookup_filter_None. right. intros info' Hinfo' [_ Hwas].
    simpl in Hwas.
    destruct Hpstatus as [Hp | Hp];
      apply (was_unavailable_status _ _ _ _ Hprev Hp) in Hwas;
      by destruct Hwas.
Qed.

(** C5.  An id missing from the previous snapshot counts as previously
    unavailable; an id with a (non-empty) previous record counts as
    previously unavailable exactly when the status of that record is
    occupied or reserved; the delta holds the current records that are
    available and were unavailable.  With an empty previous snapshot a free
    apartment C is in the delta. *)
Theorem was_unavailable_rule
    (previous current : gmap string (gmap string string)) (apt_id : string)
    (info : gmap string string) :
  records_have_status current = true →
  current !! apt_id = Some info →
  (previous !! apt_id = None → was_unavailable previous apt_id = true) ∧
  (∀ prev_info,
     previous !! apt_id = Some prev_info → prev_info ≠ ∅ →
     was_unavailable previous apt_id = true ↔
     prev_info !! "status" = Some STATUS_OCCUPIED ∨
     prev_info !! "status" = Some STATUS_RESERVED) ∧
  (∃ delta, find_newly_available (Some previous) current = Some delta ∧
     (delta !! apt_id = Some info ↔
      is_available info = Some true ∧ was_unavailable previous apt_id = true)) ∧
  (∀ record, record !! "status" = Some STATUS_FREE →
     ∃ delta, find_newly_available (Some ∅) {["C" := record]} = Some delta ∧
              delta !! "C" = Some record).
Proof.
  intros HS Hinfo. split; [apply was_unavailable_absent|].
  split; [apply was_unavailable_present|]. split.
  - rewrite (find_newly_available_filter _ _ HS). eexists. split; [done|].
    rewrite map_lookup_filter_Some. unfold newly. simpl. tauto.
  - intros record Hrecord.
    assert (records_have_status {["C" := record]} = true) as HC.
    { apply bool_decide_eq_true. apply map_Forall_singleton. by eexists. }
    rewrite (find_newly_available_filter _ _ HC). eexists. split; [done|].
    rewrite map_lookup_filter_Some, lookup_singleton_eq. split; [done|].
    split; simpl; [|by apply was_unavailable_absent].
    by rewrite (is_available_status _ _ Hrecord).
Qed.

Lemma was_unavailable_rule_witness :
  let previous := parse_apartments html5_sample [link_B_reserved] in
  let current := parse_apartments html5_sample [link_B_priced; link_C_free] in
  let info := apartment_info html5_sample link_C_free in
  ∃ delta, find_newly_available (Some previous) current = Some delta ∧
    (delta !! "C" = Some info ↔
     is_available info = Some true ∧ was_unavailable previous "C" = true).
Proof.
  intros previous current info.
  apply (was_unavailable_rule previous current "C" info);
    vm_compute; reflexivity.
Defined.

Lemma diff_self_empty_witness :
  let S := parse_apartments html5_sample [link_0_1; link_B_priced; link_C_free] in
  find_newly_available (Some S) S = Some ∅.
Proof.
  intros S. apply (diff_self_empty S). vm_compute. reflexivity.
Defined.

(** ** The page parser *)

Section Parser.

Variable _html5 : gmap string string.

Local Ltac info_lookup :=
  unfold apartment_info; cbn [list_to_map foldr uncurry fst snd];
  repeat (rewrite lookup_insert_ne by discriminate);
  first [apply lookup_insert_eq | apply lookup_empty].

Lemma apartment_info_status link :
  apartment_info _html5 link !! "status" =
  Some (status_of _html5 (default [] (attr_class link))
          (default "" (attr_data_text link))).
Proof. info_lookup. Qed.



(** The parser writes no [rent] entry. *)
Lemma apartment_info_rent link : apartment_info _html5 link !! "rent" = None.
Proof. info_lookup. Qed.

(** The state of the loop after any number of turns, started with [seen]
    equal to the keys of [apartments]. *)
Lemma parse_fold_lookup apt_links seen apartments apt_number :
  seen = dom apartments →
  (foldl (parse_step _html5) (seen, apartments) apt_links).2 !! apt_number =
  match apartments !! apt_number with
  | Some info => Some info
  | None =>
      if Str.truthy apt_number
      then apartment_info _html5 <$> first_link apt_number apt_links
      else None
  end.
Proof.
  revert seen apartments.
  induction apt_links as [|link rest IH]; intros seen apartments Hseen.
  - simpl. destruct (apartments !! apt_number); [done|].
    by destruct (Str.truthy apt_number).
  - cbn [foldl first_link]. unfold parse_step at 2.
    destruct (negb (Str.truthy (get_text link))
              || bool_decide (get_text link ∈ seen)) eqn:Hskip.
    + rewrite (IH _ _ Hseen).
      destruct (apartments !! apt_number) eqn:Hold; [done|].
      destruct (decide (get_text link = apt_number)) as [<-|]; [|done].
      apply orb_true_iff in Hskip as [Hempty|Hin].
      * apply negb_true_iff in Hempty. by rewrite Hempty.
      * apply bool_decide_eq_true in Hin. subst seen.
        apply elem_of_dom in Hin as [? Hin]. congruence.
    + apply orb_false_iff in Hskip as [Hne Hnotin].
      apply negb_false_iff in Hne. apply bool_decide_eq_false in Hnotin.
      rewrite IH by (subst seen; by rewrite dom_insert_L).
      destruct (decide (get_text link = apt_number)) as [<-|Hother].
      * rewrite lookup_insert_eq.
        subst seen. apply not_elem_of_dom in Hnotin.
        by rewrite Hnotin, Hne.
      * by rewrite lookup_insert_ne.
Qed.

(** The snapshot maps every non-empty id of the page to the info of the
    first element that carries it, and nothing else. *)
Lemma parse_apartments_lookup apt_links apt_number :
  parse_apartments _html5 apt_links !! apt_number =
  if Str.truthy apt_number
  then apartment_info _html5 <$> first_link apt_number apt_links
  else None.
Proof.
  unfold parse_apartments. rewrite parse_fold_lookup by by rewrite dom_empty_L.
  by rewrite lookup_empty.
Qed.

Lemma first_link_Some apt_number apt_links link :
  first_link apt_number apt_links = Some link →
  link ∈ apt_links ∧ get_text link = apt_number.
Proof.
  induction apt_links as [|l rest IH]; [done|]. simpl.
  destruct (decide (get_text l = apt_number)).
  - intros [= <-]. split; [left|done].
  - intros H. destruct (IH H). split; [by right|done].
Qed.

Lemma first_link_is_Some apt_links link :
  link ∈ apt_links → is_Some (first_link (get_text link) apt_links).
Proof.
  induction 1 as [link rest|link l rest _ IH]; simpl.
  - rewrite decide_True by done. by eexists.
  - destruct (decide (get_text l = get_text link)); [by eexists|done].
Qed.

(** Every record of a parsed snapshot is the info of an element of the
    page. *)
Lemma parse_apartments_inv apt_links apt_number info :
  parse_apartments _html5 apt_links !! apt_number = Some info →
  ∃ link, link ∈ apt_links ∧ get_text link = apt_number ∧
          info = apartment_info _html5 link.
Proof.
  rewrite parse_apartments_lookup.
  destruct (Str.truthy apt_number); [|done].
  destruct (first_link apt_number apt_links) as [link|] eqn:Hfirst; [|done].
  intros [= <-]. apply first_link_Some in Hfirst as [? ?]. by exists link.
Qed.

Lemma parse_apartments_have_status apt_links :
  records_have_status (parse_apartments _html5 apt_links) = true.
Proof.
  apply bool_decide_eq_true. intros apt_number info Hinfo.
  apply parse_apartments_inv in Hinfo as (link & _ & _ & ->).
  rewrite apartment_info_status. by eexists.
Qed.

(** On the parser's records the differ's availability test is the test
    for the status [free]: the [rent] entry it looks for is never there. *)
Lemma is_available_parsed apt_links apt_number info :
  parse_apartments _html5 apt_links !! apt_number = Some info →
  has_rent info = false ∧
  is_available info = Some (bool_decide (info !! "status" = Some STATUS_FREE)).
Proof.
  intros Hinfo. apply parse_apartments_inv in Hinfo as (link & _ & _ & ->).
  assert (has_rent (apartment_info _html5 link) = false) as Hrent.
  { unfold has_rent. by rewrite apartment_info_rent. }
  split; [done|].
  rewrite (is_available_status _ _ (apartment_info_status link)), Hrent.
  rewrite andb_false_r, apartment_info_status. f_equal.
  apply bool_decide_ext. split; [by intros ->|by intros [= ->]].
Qed.

End Parser.

(** In a list of pairs with distinct keys, a key that occurs occurs once. *)
Lemma count_key_NoDup {A} (l : list (string * A)) (k : string) (v : A) :
  NoDup l.*1 → (k, v) ∈ l →
  length (filter (λ entry : string * A, entry.1 = k) l) = 1%nat.
Proof.
  induction l as [|[k' v'] l IH]; [by intros _ ?%elem_of_nil|].
  rewrite fmap_cons, NoDup_cons. simpl. intros [Hk' Hl] Hin.
  destruct (decide (k' = k)) as [->|Hne].
  - rewrite filter_cons_True by done. simpl. f_equal.
    destruct (filter (λ entry : string * A, entry.1 = k) l) as [|e ?] eqn:Hf;
      [done|].
    assert (e ∈ filter (λ entry : string * A, entry.1 = k) l) as He
      by (rewrite Hf; left).
    apply list_elem_of_filter in He as [He1 He2]. destruct Hk'.
    rewrite <- He1. by apply list_elem_of_fmap_2.
  - rewrite filter_cons_False by done. apply IH; [done|].
    apply elem_of_cons in Hin as [[= ? ?]|]; [congruence|done].
Qed.

(** C1 (the code departs from the claim).  Apartment B was reserved and is
    now parsed with the status unknown and the cold rent "551 €": the
    availability test as the specification words it holds, B was unavailable
    before, and the differ still returns the empty delta, because it looks
    for an entry [rent] that the parser never writes. *)
Theorem priced_unknown_not_reported :
  let previous := parse_apartments html5_sample [link_B_reserved] in
  let current := parse_apartments html5_sample [link_B_priced] in
  (∃ prev_info, previous !! "B" = Some prev_info ∧
                prev_info !! "status" = Some STATUS_RESERVED) ∧
  (∃ info, current !! "B" = Some info ∧
           info !! "status" = Some STATUS_UNKNOWN ∧
           info !! "kaltmiete" = Some "551 €" ∧
           available_as_specified info = true ∧
           is_available info = Some false) ∧
  was_unavailable previous "B" = true ∧
  find_newly_available (Some previous) current = Some ∅.
Proof.
  intros previous current. split; [|split; [|split]].
  - exists (apartment_info html5_sample link_B_reserved).
    split; vm_compute; reflexivity.
  - exists (apartment_info html5_sample link_B_priced).
    repeat split; vm_compute; reflexivity.
  - vm_compute. reflexivity.
  - vm_compute. reflexivity.
Qed.

Section ParserClaims.

Variable _html5 : gmap string string.

(** C6.  The snapshot maps each non-empty id of the page to the record of
    the first element carrying it and holds nothing for the empty id; each
    such id occurs exactly once among the entries of the snapshot; a page
    of two elements with the same id yields the single record of the
    first. *)
Theorem first_occurrence_wins (apt_links : list element) :
  (∀ apt_number,
     parse_apartments _html5 apt_links !! apt_number =
     if Str.truthy apt_number
     then apartment_info _html5 <$> first_link apt_number apt_links
     else None) ∧
  (∀ link, link ∈ apt_links → Str.truthy (get_text link) = true →
     length (filter (λ entry : string * gmap string string,
                       entry.1 = get_text link)
               (map_to_list (parse_apartments _html5 apt_links))) = 1%nat) ∧
  (∀ first second,
     apt_links = [first; second] →
     get_text first = get_text second →
     Str.truthy (get_text first) = true →
     parse_apartments _html5 apt_links =
     {[get_text first := apartment_info _html5 first]}).
Proof.
  split; [apply parse_apartments_lookup|]. split.
  - intros link Hin Hne.
    destruct (first_link_is_Some _ _ Hin) as [l Hl].
    apply (count_key_NoDup _ _ (apartment_info _html5 l));
      [apply NoDup_fst_map_to_list|].
    apply elem_of_map_to_list.
    by rewrite parse_apartments_lookup, Hne, Hl.
  - intros first second -> Hsame Hne. apply map_eq. intros apt_number.
    rewrite parse_apartments_lookup. simpl. rewrite <- Hsame.
    destruct (decide (get_text first = apt_number)) as [<-|Hother].
    + by rewrite Hne, lookup_singleton_eq.
    + rewrite lookup_singleton_ne by done.
      by destruct (Str.truthy apt_number).
Qed.

(** C7.  Every record of a parsed snapshot has a status, and it is one of
    free, reserved, occupied and unknown. *)
Theorem status_is_one_of_four (apt_links : list element)
    (apt_number : string) (info : gmap string string) :
  parse_apartments _html5 apt_links !! apt_number = Some info →
  ∃ status, info !! "status" = Some status ∧
    status ∈ [STATUS_FREE; STATUS_RESERVED; STATUS_OCCUPIED; STATUS_UNKNOWN].
Proof.
  intros Hinfo. apply parse_apartments_inv in Hinfo as (link & _ & _ & ->).
  rewrite apartment_info_status. eexists. split; [done|].
  unfold status_of, _detect_status, _detect_status_from_data_text.
  rewrite !elem_of_cons.
  repeat (case_match; try tauto).
Qed.

End ParserClaims.

Lemma first_occurrence_wins_witness :
  parse_apartments html5_sample [link_B_reserved; link_B_priced] =
  {["B" := apartment_info html5_sample link_B_reserved]}.
Proof.
  exact (proj2 (proj2 (first_occurrence_wins html5_sample
                         [link_B_reserved; link_B_priced]))
           link_B_reserved link_B_priced eq_refl eq_refl eq_refl).
Defined.

Lemma status_is_one_of_four_witness :
  ∃ status,
    apartment_info html5_sample link_B_priced !! "status" = Some status ∧
    status ∈ [STATUS_FREE; STATUS_RESERVED; STATUS_OCCUPIED; STATUS_UNKNOWN].
Proof.
  apply (status_is_one_of_four html5_sample [link_B_priced] "B").
  vm_compute. reflexivity.
Defined.

(** ** Status resolution *)

Lemma prefix_empty s : String.prefix "" s = true.
Proof. by destruct s. Qed.

Lemma lower_app a b : Str.lower (a +:+ b) = Str.lower a +:+ Str.lower b.
Proof. induction a as [|c a IH]; simpl; [done|by rewrite IH]. Qed.

(** A word without the character [c] that starts in front of a [c] ends in
    front of it. *)
Lemma prefix_app_sep w x c b :
  Str.contains (String c "") w = false →
  String.prefix w (x +:+ String c b) = String.prefix w x.
Proof.
  revert w. induction x as [|e x IH]; intros [|d w] Hw; simpl; try done.
  - simpl in Hw. destruct (ascii_dec c d) as [->|Hcd].
    + by rewrite prefix_empty in Hw.
    + destruct (ascii_dec d c) as [->|]; [done|done].
  - destruct (ascii_dec d e); [|done]. apply IH.
    simpl in Hw. by apply orb_false_iff in Hw as [_ Hw].
Qed.

Lemma contains_app_sep w a c b :
  Str.contains (String c "") w = false →
  Str.contains w (a +:+ String c b) = Str.contains w a || Str.contains w b.
Proof.
  intros Hw. induction a as [|e a IH].
  - change (Str.contains w ("" +:+ String c b))
      with (String.prefix w ("" +:+ String c b) || Str.contains w b).
    rewrite (prefix_app_sep _ _ _ _ Hw). simpl. by rewrite orb_false_r.
  - change (Str.contains w (String e a +:+ String c b))
      with (String.prefix w (String e a +:+ String c b)
            || Str.contains w (a +:+ String c b)).
    rewrite (prefix_app_sep _ _ _ _ Hw), IH. simpl. by rewrite orb_assoc.
Qed.

(** Searching the joined, lower-cased class string for a word without a
    space is searching the lower-cased tokens one by one. *)
Lemma contains_join word classes :
  word ≠ "" → Str.contains " " word = false →
  Str.contains word (Str.lower (Str.join " " classes)) =
  some_token_contains word classes.
Proof.
  intros Hne Hsp. induction classes as [|token rest IH].
  - destruct word; [done|reflexivity].
  - destruct rest as [|next rest].
    + simpl. by rewrite orb_false_r.
    + change (Str.join " " (token :: next :: rest))
        with (token +:+ String " " (Str.join " " (next :: rest))).
      rewrite lower_app.
      change (Str.lower (String " " (Str.join " " (next :: rest))))
        with (String " " (Str.lower (Str.join " " (next :: rest)))).
      rewrite (contains_app_sep _ _ _ _ Hsp), IH. reflexivity.
Qed.

Section StatusClaims.

Variable _html5 : gmap string string.

Lemma _detect_status_tokens classes :
  _detect_status classes =
  if some_token_contains "free" classes then STATUS_FREE
  else if some_token_contains "reserved" classes then STATUS_RESERVED
  else if some_token_contains "occupied" classes then STATUS_OCCUPIED
  else STATUS_UNKNOWN.
Proof. unfold _detect_status. by rewrite !contains_join. Qed.


End StatusClaims.

(** ** Entity decoding *)


Section DecodingClaims.

Variable _html5 : gmap string string.




End DecodingClaims.


(** The blob of the page is encoded twice: one pass is not enough, two
    passes decode it, a third changes nothing. *)
Example double_encoded_blob :
  let blob := "Status: &amp;lt;span class=unit_free&amp;gt;frei" in
  unescape html5_sample blob = "Status: &lt;span class=unit_free&gt;frei" ∧
  double_unescape html5_sample blob = "Status: <span class=unit_free>frei" ∧
  unescape html5_sample (double_unescape html5_sample blob) =
  double_unescape html5_sample blob.
Proof. repeat split; vm_compute; reflexivity. Qed.

(** Without the premise of C9 the double decoding is not idempotent: a text
    encoded three times is changed by every pass. *)
Example triple_encoded_text :
  double_unescape html5_sample "&amp;amp;lt;br&amp;amp;gt;" = "&lt;br&gt;" ∧
  double_unescape html5_sample "&lt;br&gt;" = "<br>".
Proof. split; vm_compute; reflexivity. Qed.

Example status_resolution_ex :
  status_of html5_sample ["apartment"; "Reserved"; "is-FREE"] "" = STATUS_FREE ∧
  status_of html5_sample ["apartment"; "occupied"]
    "&lt;span class=unit_free&gt;" = STATUS_OCCUPIED ∧
  status_of html5_sample ["apartment"]
    "&amp;lt;span class=unit_reserved&amp;gt;" = STATUS_RESERVED ∧
  status_of html5_sample ["apartment"] "Status: frei" = STATUS_UNKNOWN.
Proof. repeat split; vm_compute; reflexivity. Qed.

(** ** Monetary fields *)


Section MoneyClaims.

Variable _html5 : gmap string string.


End MoneyClaims.



(** ** Unit type *)

Lemma str_app_cons c a b : String c a +:+ b = String c (a +:+ b).
Proof. reflexivity. Qed.



Lemma span_all_app cls pre rest :
  all_chars cls pre = true → Re.span cls rest = O →
  Re.span cls (pre +:+ rest) = String.length pre.
Proof.
  intros Hpre Hrest. induction pre as [|c pre IH]; simpl in *; [done|].
  apply andb_true_iff in Hpre as [-> Hpre]. by rewrite IH.
Qed.



Lemma drop_app_length pre rest :
  Str.drop (String.length pre) (pre +:+ rest) = rest.
Proof. induction pre as [|c pre IH]; simpl; [by destruct rest|done]. Qed.






(** The first attempt of a greedy repetition: it takes all it can, and the
    rest of the sequence matches behind it. *)
Lemma match_seq_greedy cls lo hi items s n r :
  n = match hi with Some h => Re.span cls s `min` h | None => Re.span cls s end →
  (lo ≤ n)%nat → Re.match_seq items (Str.drop n s) = Some r →
  Re.match_seq (Re.Rep cls lo hi :: items) s = Some (n + r)%nat.
Proof.
  intros Hn Hlo Hr. cbn [Re.match_seq]. cbv zeta. rewrite <- Hn.
  destruct (n <? lo)%nat eqn:Hlt; [apply Nat.ltb_lt in Hlt; lia|].
  destruct (n - lo)%nat as [|d] eqn:Hd; cbn [Re.try_down].
  - replace (lo + 0)%nat with n by lia. by rewrite Hr.
  - replace (lo + S d)%nat with n by lia. by rewrite Hr.
Qed.

Lemma match_seq_one c items s r :
  Re.match_seq items s = Some r →
  Re.match_seq (Re.one (Re.chr c) :: items) (String c s) = Some (S r).
Proof.
  intros Hr. apply (match_seq_greedy _ _ _ _ _ 1%nat); [|done|done].
  cbn [Re.span]. unfold Re.chr at 1. rewrite Ascii.eqb_refl.
  by destruct (Re.span (Re.chr c) s).
Qed.







Section UnitTypeClaims.

Variable _html5 : gmap string string.


End UnitTypeClaims.


Example only_nr_suffix_ex : only_nr_suffix "  Nr. 0.1 ".
Proof. exists "  ", " ", "0.1", " ". repeat split; done. Qed.

(** * Further properties *)

(** ** Pages and records *)

Section ParserMore.

Variable _html5 : gmap string string.

Lemma first_link_app apt_number l1 l2 :
  first_link apt_number (l1 ++ l2)%list =
  match first_link apt_number l1 with
  | Some link => Some link
  | None => first_link apt_number l2
  end.
Proof.
  induction l1 as [|link l1 IH]; [done|]. simpl.
  by destruct (decide (get_text link = apt_number)).
Qed.

(** X1.  Parsing two lists of elements one after the other is the union of
    the two snapshots in which the first one wins. *)
Theorem parse_apartments_app (l1 l2 : list element) :
  parse_apartments _html5 (l1 ++ l2)%list =
  parse_apartments _html5 l1 ∪ parse_apartments _html5 l2.
Proof.
  apply map_eq. intros apt_number.
  rewrite lookup_union, !parse_apartments_lookup, first_link_app.
  destruct (Str.truthy apt_number); [|done].
  destruct (first_link apt_number l1); simpl;
    by destruct (first_link apt_number l2).
Qed.

Lemma parse_fold_size apt_links seen apartments :
  (size (foldl (parse_step _html5) (seen, apartments) apt_links).2
   ≤ size apartments + length apt_links)%nat.
Proof.
  revert seen apartments.
  induction apt_links as [|link rest IH]; intros seen apartments;
    [simpl; lia|].
  cbn [foldl length]. unfold parse_step at 2.
  destruct (negb (Str.truthy (get_text link))
            || bool_decide (get_text link ∈ seen)).
  - etrans; [apply IH|lia].
  - etrans; [apply IH|].
    pose proof (map_size_insert (get_text link) (apartment_info _html5 link)
                  apartments) as Hsize.
    destruct (apartments !! get_text link); simpl in Hsize; lia.
Qed.

(** X2.  The ids of the snapshot are the non-empty texts of the elements of
    the page, and the snapshot has at most as many records as the page has
    elements. *)
Theorem parse_apartments_ids (apt_links : list element) :
  (∀ apt_number,
     apt_number ∈ dom (parse_apartments _html5 apt_links) ↔
     apt_number ≠ "" ∧ ∃ link, link ∈ apt_links ∧ get_text link = apt_number) ∧
  (size (parse_apartments _html5 apt_links) ≤ length apt_links)%nat.
Proof.
  split.
  - intros apt_number. rewrite elem_of_dom, parse_apartments_lookup. split.
    + intros [info Hinfo]. destruct apt_number as [|c s]; [done|].
      split; [done|]. simpl in Hinfo.
      destruct (first_link (String c s) apt_links) as [link|] eqn:Hfirst;
        [|done].
      apply first_link_Some in Hfirst as [? ?]. by exists link.
    + intros [Hne (link & Hin & <-)].
      destruct (first_link_is_Some _ _ Hin) as [l Hl]. rewrite Hl.
      destruct (get_text link); [done|]. by eexists.
  - pose proof (parse_fold_size apt_links ∅ ∅) as H.
    rewrite map_size_empty in H. exact H.
Qed.

(** X3.  Every record of a parsed snapshot has exactly the seven entries
    name, type, status, size, kaltmiete, nebenkosten and total, and its name
    is "Apartment " followed by its id. *)
Theorem parsed_record_layout (apt_links : list element)
    (apt_number : string) (info : gmap string string) :
  parse_apartments _html5 apt_links !! apt_number = Some info →
  dom info =
  list_to_set ["name"; "type"; "status"; "size"; "kaltmiete"; "nebenkosten";
               "total"] ∧
  info !! "name" = Some ("Apartment " +:+ apt_number).
Proof.
  intros Hinfo. apply parse_apartments_inv in Hinfo as (link & _ & <- & ->).
  split.
  - unfold apartment_info. rewrite dom_list_to_map_L. reflexivity.
  - unfold apartment_info. cbn [list_to_map foldr uncurry fst snd].
    apply lookup_insert_eq.
Qed.

End ParserMore.

Lemma parsed_record_layout_witness :
  dom (apartment_info html5_sample link_0_1) =
  list_to_set ["name"; "type"; "status"; "size"; "kaltmiete"; "nebenkosten";
               "total"] ∧
  apartment_info html5_sample link_0_1 !! "name" = Some "Apartment 0.1".
Proof.
  apply (parsed_record_layout html5_sample [link_0_1] "0.1").
  vm_compute. reflexivity.
Defined.

(** X4.  The status read from the classes depends on the set of tokens only:
    neither their order nor repetitions matter. *)
Theorem _detect_status_token_set (classes1 classes2 : list string) :
  (∀ token, token ∈ classes1 ↔ token ∈ classes2) →
  _detect_status classes1 = _detect_status classes2.
Proof.
  intros Hset.
  assert (∀ word, some_token_contains word classes1 =
                  some_token_contains word classes2) as Hsame.
  { intros word. unfold some_token_contains.
    apply eq_true_iff_eq. rewrite !existsb_exists.
    split; intros (token & Hin & Hc); exists token; split; try done.
    - apply list_elem_of_In, Hset, list_elem_of_In, Hin.
    - apply list_elem_of_In, Hset, list_elem_of_In, Hin. }
  by rewrite !_detect_status_tokens, !Hsame.
Qed.

Lemma _detect_status_token_set_witness :
  _detect_status ["apartment"; "Reserved"; "apartment"] =
  _detect_status ["Reserved"; "apartment"].
Proof.
  apply _detect_status_token_set. intros token.
  rewrite !elem_of_cons, !elem_of_nil. tauto.
Defined.

(** ** The differ *)

(** X5.  The delta is a part of the current snapshot: every entry of the
    delta is an entry of [current] with the same record, so an id that is no
    longer listed is never reported. *)
Theorem delta_subseteq_current
    (previous : option (gmap string (gmap string string)))
    (current delta : gmap string (gmap string string)) :
  find_newly_available previous current = Some delta → delta ⊆ current.
Proof.
  destruct previous as [previous|]; simpl.
  - intros Hdelta. apply map_subseteq_spec. intros apt_id info Hinfo.
    by apply (find_newly_available_lookup _ _ _ apt_id info Hdelta) in Hinfo
      as [? _].
  - intros [= <-]. apply map_empty_subseteq.
Qed.

Lemma delta_subseteq_current_witness :
  match find_newly_available
          (Some (parse_apartments html5_sample [link_B_reserved]))
          (parse_apartments html5_sample [link_C_free; link_0_1]) with
  | Some delta => delta ⊆ parse_apartments html5_sample [link_C_free; link_0_1]
  | None => False
  end.
Proof.
  pose proof (find_newly_available_filter
                (parse_apartments html5_sample [link_B_reserved])
                (parse_apartments html5_sample [link_C_free; link_0_1])
                (parse_apartments_have_status _ _)) as Hdelta.
  rewrite Hdelta. exact (delta_subseteq_current _ _ _ Hdelta).
Defined.

(** X6.  The differ raises exactly when a previous snapshot exists and some
    current record has no status entry; on the first run it never raises. *)
Theorem find_newly_available_raises
    (previous : option (gmap string (gmap string string)))
    (current : gmap string (gmap string string)) :
  find_newly_available previous current = None ↔
  is_Some previous ∧
  ∃ apt_id info, current !! apt_id = Some info ∧ info !! "status" = None.
Proof.
  destruct previous as [previous|]; simpl.
  - change (map_fold (diff_step previous) (Some ∅) current)
      with (find_newly_available (Some previous) current).
    destruct (records_have_status current) eqn:HS.
    + rewrite (find_newly_available_filter _ _ HS). split; [done|].
      intros (_ & apt_id & info & Hinfo & Hnone).
      destruct (records_have_status_lookup _ _ _ HS Hinfo) as [? ?].
      congruence.
    + rewrite (find_newly_available_KeyError _ _ HS). split; [|done].
      intros _. split; [by eexists|].
      apply bool_decide_eq_false in HS.
      apply map_not_Forall in HS; [|apply _].
      destruct HS as (apt_id & info & Hinfo & Hnot).
      exists apt_id, info. split; [done|].
      destruct (info !! "status") eqn:Hs; [|done].
      destruct Hnot. by eexists.
  - split; [done|]. by intros [[? ?] _].
Qed.

(** X7.  An apartment that was occupied or reserved and is free now is in
    the delta, with its current record. *)
Theorem newly_free_is_reported
    (previous current : gmap string (gmap string string)) (apt_id : string)
    (prev_info info : gmap string string) :
  records_have_status current = true →
  previous !! apt_id = Some prev_info →
  prev_info !! "status" = Some STATUS_OCCUPIED ∨
  prev_info !! "status" = Some STATUS_RESERVED →
  current !! apt_id = Some info →
  info !! "status" = Some STATUS_FREE →
  ∃ delta, find_newly_available (Some previous) current = Some delta ∧
           delta !! apt_id = Some info.
Proof.
  intros HS Hprev Hpstatus Hinfo Hstatus.
  rewrite (find_newly_available_filter _ _ HS). eexists. split; [done|].
  apply map_lookup_filter_Some. split; [done|]. split; simpl.
  - by rewrite (is_available_status _ _ Hstatus).
  - destruct Hpstatus as [Hp|Hp];
      apply (was_unavailable_status _ _ _ _ Hprev Hp); auto.
Qed.

Lemma newly_free_is_reported_witness :
  ∃ delta,
    find_newly_available
      (Some (parse_apartments html5_sample [link_0_1]))
      {["0.1" := apartment_info html5_sample link_C_free]} = Some delta ∧
    delta !! "0.1" = Some (apartment_info html5_sample link_C_free).
Proof.
  apply (newly_free_is_reported _ _ "0.1"
           (apartment_info html5_sample link_0_1));
    try (vm_compute; reflexivity).
  left. vm_compute. reflexivity.
Defined.

(** X8.  On a parsed page the differ never raises, and it reports exactly
    the records that are free now and whose id was missing, occupied or
    reserved in the previous snapshot; a record of unknown status is never
    reported. *)
Theorem parsed_delta_is_free (_html5 : gmap string string)
    (previous : gmap string (gmap string string))
    (apt_links : list element) :
  ∃ delta,
    find_newly_available (Some previous) (parse_apartments _html5 apt_links)
    = Some delta ∧
    ∀ apt_id info,
      delta !! apt_id = Some info ↔
      parse_apartments _html5 apt_links !! apt_id = Some info ∧
      info !! "status" = Some STATUS_FREE ∧
      was_unavailable previous apt_id = true.
Proof.
  rewrite (find_newly_available_filter _ _
             (parse_apartments_have_status _html5 apt_links)).
  eexists. split; [done|]. intros apt_id info.
  rewrite map_lookup_filter_Some. unfold newly. simpl. split.
  - intros (Hinfo & Hav & Hwas).
    destruct (is_available_parsed _ _ _ _ Hinfo) as [_ Hfree].
    rewrite Hfree in Hav. injection Hav as Hav.
    by apply bool_decide_eq_true in Hav.
  - intros (Hinfo & Hstatus & Hwas).
    destruct (is_available_parsed _ _ _ _ Hinfo) as [_ Hfree].
    rewrite Hfree. split; [done|]. split; [|done].
    f_equal. by apply bool_decide_eq_true.
Qed.

(** ** Amounts *)

Lemma int_go_of_uint_acc d p :
  Str.int_go 10 (Npos p) (NilEmpty.string_of_uint d) = Npos (Pos.of_uint_acc d p).
Proof.
  revert p. induction d; intros p; simpl; [done|..];
    rewrite <- IHd; f_equal;
    match goal with
    | |- context [Str.digit_val ?c] =>
        let v := eval vm_compute in (Str.digit_val c) in
        change (Str.digit_val c) with v
    end; lia.
Qed.

Lemma int_go_of_uint d :
  Str.int_go 10 0 (NilEmpty.string_of_uint d) = N.of_uint d.
Proof.
  induction d; simpl; [done|exact IHd|..]; apply int_go_of_uint_acc.
Qed.

Lemma string_of_uint_digits d :
  all_chars Str.isdigit (NilEmpty.string_of_uint d) = true.
Proof. induction d; simpl; done. Qed.

Lemma format_nilempty n :
  Str.format n = NilEmpty.string_of_uint (N.to_uint n) ∧ Str.format n ≠ "".
Proof.
  unfold Str.format, NilZero.string_of_uint.
  destruct n as [|p]; [done|]. simpl.
  pose proof (DecimalPos.Unsigned.to_uint_nonnil p) as Hnil.
  destruct (Pos.to_uint p); [done|..]; done.
Qed.

(** [int] reads back what [format] writes. *)
Lemma int_format n : Str.int (Str.format n) = n.
Proof.
  destruct (format_nilempty n) as [-> _]. unfold Str.int.
  rewrite int_go_of_uint. apply DecimalN.Unsigned.of_to.
Qed.

Lemma take_app_length pre rest :
  Str.take (String.length pre) (pre +:+ rest) = pre.
Proof.
  induction pre as [|c pre IH]; [by destruct rest|].
  rewrite str_app_cons. cbn [String.length Str.take]. by rewrite IH.
Qed.

(** X9.  The monetary strings parse back to the amounts they were written
    from: the amount of "<n> €" is n, and the amount of the empty string
    written for 0 is 0. *)
Theorem amount_euro (n : N) : amount (euro n) = n.
Proof.
  unfold euro. destruct (N.eqb_spec n 0) as [->|Hn]; [done|].
  destruct (format_nilempty n) as [Hfmt Hne].
  assert (Re.search re_digits (Str.format n +:+ " €")
          = Some (O, String.length (Str.format n) + 0)%nat) as Hsearch.
  { assert (Re.match_seq [Re.plus Str.isdigit] (Str.format n +:+ " €")
            = Some (String.length (Str.format n) + 0)%nat) as Hm.
    { apply match_seq_greedy; [| |by rewrite drop_app_length].
      - rewrite span_all_app; [done| |done].
        rewrite Hfmt. apply string_of_uint_digits.
      - destruct (Str.format n); [done|simpl; lia]. }
    unfold re_digits. destruct (Str.format n +:+ " €");
      cbn [Re.search Re.match_here]; by rewrite Hm. }
  unfold amount. rewrite Hsearch.
  replace (Str.truthy (Str.format n +:+ " €")) with true
    by (by destruct (Str.format n)).
  cbn [Str.drop]. rewrite Nat.add_0_r, take_app_length. apply int_format.
Qed.

(** ** Markup tags *)

Lemma str_app_nil_l s : "" +:+ s = s.
Proof. reflexivity. Qed.

Lemma chr_neq a c : a ≠ c → Re.chr a c = false.
Proof. intros H. unfold Re.chr. by apply Ascii.eqb_neq. Qed.


Lemma chr_true a c : Re.chr a c = true → a = c.
Proof. unfold Re.chr. by intros ?%Ascii.eqb_eq. Qed.

Lemma try_down_None f lo d :
  (∀ k, f k = None) → Re.try_down f lo d = None.
Proof.
  intros Hf. induction d as [|d IH]; cbn [Re.try_down]; rewrite Hf; done.
Qed.

Lemma all_chars_drop cls k s :
  all_chars cls s = true → all_chars cls (Str.drop k s) = true.
Proof.
  revert s. induction k as [|k IH]; intros [|c s]; cbn [Str.drop all_chars];
    try done.
  intros [_ Hs]%andb_true_iff. by apply IH.
Qed.

Lemma match_one_outside c items s :
  starts_outside (Re.chr c) s = true →
  Re.match_seq (Re.one (Re.chr c) :: items) s = None.
Proof.
  intros Hs. cbn [Re.match_seq Re.one]. cbv zeta.
  replace (Re.span (Re.chr c) s) with O; [done|].
  destruct s as [|c' s]; [done|]. cbn [starts_outside Re.span] in *.
  apply negb_true_iff in Hs. by rewrite Hs.
Qed.

(** No tag starts at a character other than "<". *)
Lemma tag_not_lt c s : c ≠ "<"%char → Re.match_here re_tag (String c s) = None.
Proof.
  intros Hc. unfold re_tag. cbn [Re.match_here].
  rewrite match_one_outside; [done|]. cbn [starts_outside].
  apply negb_true_iff, chr_neq. congruence.
Qed.

(** What the tag pattern does behind a "<". *)
Lemma tag_behind_lt s :
  Re.match_here re_tag (String "<" s) =
  S <$> Re.match_seq [Re.plus (not_cls (Re.chr ">")); Re.one (Re.chr ">")] s.
Proof.
  unfold re_tag. cbn [Re.match_here].
  destruct (Re.match_seq [Re.plus (not_cls (Re.chr ">")); Re.one (Re.chr ">")] s)
    as [n|] eqn:Hm.
  - by rewrite (match_seq_one _ _ _ _ Hm).
  - change (Re.match_seq
              [Re.one (Re.chr "<"); Re.plus (not_cls (Re.chr ">"));
               Re.one (Re.chr ">")] (String "<" s))
      with (Re.try_down
              (λ k, Nat.add k <$>
                 Re.match_seq [Re.plus (not_cls (Re.chr ">")); Re.one (Re.chr ">")]
                   (Str.drop k (String "<" s)))
              1 (Re.span (Re.chr "<") (String "<" s) `min` 1 - 1)).
    replace (Re.span (Re.chr "<") (String "<" s) `min` 1 - 1)%nat with O
      by (cbn [Re.span]; rewrite (Ascii.eqb_refl "<" : Re.chr "<" "<" = true);
          lia).
    cbn [Re.try_down Nat.add Str.drop]. by rewrite Hm.
Qed.

(** No tag starts at a "<" that ends the text or stands before ">". *)
Lemma tag_lt_gt s :
  starts_outside (not_cls (Re.chr ">")) s = true →
  Re.match_here re_tag (String "<" s) = None.
Proof.
  intros Hs. rewrite tag_behind_lt.
  cbn [Re.match_seq Re.plus]. cbv zeta.
  replace (Re.span (not_cls (Re.chr ">")) s) with O; [done|].
  destruct s as [|c s]; [done|]. cbn [starts_outside Re.span] in *.
  apply negb_true_iff in Hs. by rewrite Hs.
Qed.

Lemma match_seq_rep_None cls lo hi items s :
  (∀ k, Re.match_seq items (Str.drop k s) = None) →
  Re.match_seq (Re.Rep cls lo hi :: items) s = None.
Proof.
  intros Hk. cbn [Re.match_seq]. cbv zeta.
  match goal with |- (if ?b then _ else _) = _ => destruct b; [done|] end.
  apply try_down_None. intros k. by rewrite Hk.
Qed.

(** No tag starts at a "<" that no ">" follows. *)
Lemma tag_no_gt s :
  all_chars (not_cls (Re.chr ">")) s = true →
  Re.match_here re_tag (String "<" s) = None.
Proof.
  intros Hs. rewrite tag_behind_lt. unfold Re.plus.
  rewrite match_seq_rep_None; [done|]. intros k.
  apply match_one_outside.
  pose proof (all_chars_drop _ k _ Hs) as Hd.
  destruct (Str.drop k s) as [|c r]; [done|].
  cbn [starts_outside all_chars] in *.
  apply andb_true_iff in Hd as [Hc _]. exact Hc.
Qed.

Lemma drop_span_outside cls s :
  all_chars cls s = false →
  ∃ c r, Str.drop (Re.span cls s) s = String c r ∧ cls c = false.
Proof.
  induction s as [|c s IH]; [done|]. cbn [all_chars Re.span].
  destruct (cls c) eqn:Hc; cbn [andb Str.drop]; [apply IH|].
  intros _. by exists c, s.
Qed.

(** A tag starts at a "<" followed by a character other than ">" and, later,
    by a ">". *)
Lemma tag_found c s :
  c ≠ ">"%char → all_chars (not_cls (Re.chr ">")) s = false →
  ∃ n, Re.match_here re_tag (String "<" (String c s)) = Some (S n).
Proof.
  intros Hc Hs.
  assert (not_cls (Re.chr ">") c = true) as Hcls.
  { unfold not_cls. apply negb_true_iff, chr_neq. congruence. }
  assert (all_chars (not_cls (Re.chr ">")) (String c s) = false) as Hcs
    by (cbn [all_chars]; by rewrite Hcls).
  destruct (drop_span_outside _ _ Hcs) as (g & r & Hdrop & Hg).
  assert (g = ">"%char) as ->.
  { unfold not_cls in Hg. apply negb_false_iff in Hg.
    symmetry. by apply chr_true. }
  assert (Re.match_seq [Re.plus (not_cls (Re.chr ">")); Re.one (Re.chr ">")]
            (String c s)
          = Some (Re.span (not_cls (Re.chr ">")) (String c s) + 1)%nat) as Hm.
  { apply match_seq_greedy; [done| |].
    - cbn [Re.span]. rewrite Hcls. lia.
    - rewrite Hdrop. by apply match_seq_one. }
  exists (Re.span (not_cls (Re.chr ">")) (String c s) + 1)%nat.
  by rewrite tag_behind_lt, Hm.
Qed.

(** The shape of a text at whose start no tag is found. *)
Lemma tag_none_inv c s :
  match Re.match_here re_tag (String c s) with
  | Some (S _) => False
  | _ => True
  end →
  c ≠ "<"%char ∨ starts_outside (not_cls (Re.chr ">")) s = true ∨
  all_chars (not_cls (Re.chr ">")) s = true.
Proof.
  intros Hm. destruct (ascii_dec c "<") as [->|Hc]; [|by left]. right.
  destruct s as [|c1 s]; [by left|].
  destruct (ascii_dec c1 ">") as [->|Hc1].
  { left. cbn [starts_outside]. unfold not_cls.
    by rewrite (Ascii.eqb_refl ">" : Re.chr ">" ">" = true). }
  right.
  assert (not_cls (Re.chr ">") c1 = true) as Hcls.
  { unfold not_cls. apply negb_true_iff, chr_neq. congruence. }
  cbn [all_chars]. rewrite Hcls. cbn [andb].
  destruct (all_chars (not_cls (Re.chr ">")) s) eqn:Hall; [done|].
  destruct (tag_found c1 s Hc1 Hall) as [n Hn]. by rewrite Hn in Hm.
Qed.

Lemma tag_none c s :
  c ≠ "<"%char ∨ starts_outside (not_cls (Re.chr ">")) s = true ∨
  all_chars (not_cls (Re.chr ">")) s = true →
  Re.match_here re_tag (String c s) = None.
Proof.
  intros [Hc|[Hs|Hs]]; [by apply tag_not_lt|..];
    (destruct (ascii_dec c "<") as [->|Hc]; [|by apply tag_not_lt]).
  - by apply tag_lt_gt.
  - by apply tag_no_gt.
Qed.

(** Removing matches adds no character. *)
Lemma sub_go_all_chars cls re skip s :
  all_chars cls s = true →
  all_chars cls (Re.sub_go re (λ _, "") skip s) = true.
Proof.
  revert skip. induction s as [|c s IH]; intros skip Hs; [done|].
  cbn [all_chars] in Hs. apply andb_true_iff in Hs as [Hc Hs].
  cbn [Re.sub_go].
  destruct skip as [|k]; [|by apply IH].
  destruct (Re.match_here re (String c s)) as [[|n]|].
  - cbn [all_chars]. rewrite Hc. by apply IH.
  - rewrite str_app_nil_l. by apply IH.
  - cbn [all_chars]. rewrite Hc. by apply IH.
Qed.

(** A ">" at the start of the text stays where it is. *)
Lemma sub_go_starts_gt s :
  starts_outside (not_cls (Re.chr ">")) s = true →
  starts_outside (not_cls (Re.chr ">")) (Re.sub_go re_tag (λ _, "") O s) = true.
Proof.
  destruct s as [|c s]; [done|]. cbn [starts_outside]. intros Hc.
  cbn [Re.sub_go]. rewrite tag_not_lt; [done|].
  intros ->. unfold not_cls in Hc.
  by rewrite (chr_neq ">" "<") in Hc.
Qed.

Lemma sub_go_tag_free skip s :
  tag_free (Re.sub_go re_tag (λ _, "") skip s).
Proof.
  unfold tag_free. revert skip.
  induction s as [|c s IH]; intros skip; [done|]. cbn [Re.sub_go].
  destruct skip as [|k]; [|apply IH].
  assert (match Re.match_here re_tag (String c s) with
          | Some (S _) => False
          | _ => True
          end →
          Re.search re_tag (String c (Re.sub_go re_tag (λ _, "") O s)) = None)
    as Hkeep.
  { intros Hm. cbn [Re.search]. rewrite (IH O).
    rewrite tag_none; [done|].
    destruct (tag_none_inv c s Hm) as [Hc|[Hs|Hs]]; [by left|right; left|].
    - by apply sub_go_starts_gt.
    - right. right. by apply sub_go_all_chars. }
  destruct (Re.match_here re_tag (String c s)) as [[|n]|] eqn:Hm.
  - by apply Hkeep.
  - rewrite str_app_nil_l. apply IH.
  - by apply Hkeep.
Qed.

(** What is left after the tags are removed holds no tag. *)
Lemma sub_tag_free s : tag_free (Re.sub re_tag (λ _, "") s).
Proof. apply sub_go_tag_free. Qed.

(** ** Detail fields *)














Lemma prefix_cons a w c s :
  String.prefix (String a w) (String c s) =
  if ascii_dec a c then String.prefix w s else false.
Proof. reflexivity. Qed.



Section DetailsMore.

Variable _html5 : gmap string string.



End DetailsMore.


(** ** The notification *)

(** X11.  The plain-text part that [send_email] derives from an HTML body
    holds no markup tag. *)
Theorem plain_text_tag_free (body_html : string) :
  tag_free (plain_text body_html).
Proof. apply sub_tag_free. Qed.

Lemma sorted_items_elem_of {A} (d : gmap string A) apt_id info :
  (apt_id, info) ∈ sorted_items d ↔ d !! apt_id = Some info.
Proof.
  unfold sorted_items. rewrite merge_sort_Permutation.
  apply elem_of_map_to_list.
Qed.

Lemma email_row_None apt_id info :
  email_row (apt_id, info) = None ↔ info !! "type" = None.
Proof. unfold email_row. by destruct (info !! "type"). Qed.

(** X12.  Building the email raises exactly when some record of the delta
    has no type entry. *)
Theorem build_availability_email_raises
    (newly_free_apartments : gmap string (gmap string string)) :
  build_availability_email newly_free_apartments = None ↔
  ∃ apt_id info,
    newly_free_apartments !! apt_id = Some info ∧ info !! "type" = None.
Proof.
  unfold build_availability_email. cbv zeta.
  destruct (mapM email_row (sorted_items newly_free_apartments)) as [rows|]
    eqn:Hrows; simpl.
  - split; [done|]. intros (apt_id & info & Hinfo & Htype).
    assert (is_Some (mapM email_row (sorted_items newly_free_apartments)))
      as Hsome by (by eexists).
    apply mapM_is_Some in Hsome. rewrite Forall_forall in Hsome.
    apply sorted_items_elem_of, Hsome in Hinfo as [row Hrow].
    apply (proj2 (email_row_None apt_id info)) in Htype.
    by rewrite Hrow in Htype.
  - split; [|done]. intros _.
    apply mapM_None, Exists_exists in Hrows as ([apt_id info] & Hin & Hnone).
    exists apt_id, info. split; [by apply sorted_items_elem_of|].
    by apply (email_row_None apt_id).
Qed.

Lemma prefix_app_same w b : String.prefix w (w +:+ b) = true.
Proof.
  induction w as [|a w IH]; [apply prefix_empty|].
  rewrite str_app_cons, prefix_cons. by destruct (ascii_dec a a).
Qed.

Lemma contains_app_r w a b :
  Str.contains w b = true → Str.contains w (a +:+ b) = true.
Proof.
  intros Hb. induction a as [|c a IH]; [done|].
  rewrite str_app_cons. cbn [Str.contains]. rewrite IH. apply orb_true_r.
Qed.

Lemma contains_of_prefix w s :
  String.prefix w s = true → Str.contains w s = true.
Proof. intros H. destruct s; cbn [Str.contains]; by rewrite H. Qed.

Lemma contains_app_l w a b :
  Str.contains w a = true → Str.contains w (a +:+ b) = true.
Proof.
  induction a as [|c a IH].
  - destruct w; [by destruct b|done].
  - rewrite str_app_cons. cbn [Str.contains]. intros [Hp|Ha]%orb_true_iff.
    + replace (String.prefix w (String c (a +:+ b))) with true; [done|].
      symmetry. revert Hp. rewrite <- str_app_cons.
      generalize (String c a). clear. intros s. revert w.
      induction s as [|c s IH]; intros [|a w]; try done.
      * intros _. apply prefix_empty.
      * rewrite str_app_cons, !prefix_cons.
        destruct (ascii_dec a c); [apply IH|done].
    + rewrite (IH Ha). apply orb_true_r.
Qed.

Lemma contains_concat w row rows :
  row ∈ rows → Str.contains w row = true →
  Str.contains w (String.concat "" rows) = true.
Proof.
  induction rows as [|r rows IH]; [by intros ?%elem_of_nil|].
  intros [->|Hin]%elem_of_cons Hrow.
  - destruct rows; [done|]. cbn [String.concat]. by apply contains_app_l.
  - destruct rows as [|r' rows]; [by apply elem_of_nil in Hin|].
    cbn [String.concat]. apply contains_app_r, contains_app_r. by apply IH.
Qed.

(** X13.  The body of the email names every apartment of the delta: it
    holds the id and the type of each. *)
Theorem email_names_every_apartment
    (newly_free_apartments : gmap string (gmap string string))
    (subject body_html apt_id : string) (info : gmap string string) :
  build_availability_email newly_free_apartments = Some (subject, body_html) →
  newly_free_apartments !! apt_id = Some info →
  Str.contains apt_id body_html = true ∧
  ∃ type, info !! "type" = Some type ∧ Str.contains type body_html = true.
Proof.
  unfold build_availability_email. cbv zeta.
  destruct (mapM email_row (sorted_items newly_free_apartments)) as [rows|]
    eqn:Hrows; [|done].
  simpl. intros [= _ <-] Hinfo.
  apply mapM_Some in Hrows.
  apply sorted_items_elem_of, list_elem_of_lookup in Hinfo as [i Hi].
  destruct (Forall2_lookup_l _ _ _ _ _ Hrows Hi) as (row & Hrow & Hmake).
  assert (row ∈ rows) as Hin by (apply list_elem_of_lookup; by exists i).
  unfold email_row in Hmake.
  destruct (info !! "type") as [type|] eqn:Htype; [|done].
  simpl in Hmake. injection Hmake as <-.
  assert (∀ w, Str.contains w
                 ("<tr>" +:+
                  "<td style=" +:+ dq +:+ td +:+ dq +:+ ">" +:+ apt_id +:+ "</td>" +:+
                  "<td style=" +:+ dq +:+ td +:+ dq +:+ ">" +:+ type +:+ "</td>" +:+
                  "<td style=" +:+ dq +:+ td +:+ dq +:+ ">" +:+
                  default "" (info !! "size") +:+ "</td>" +:+
                  "<td style=" +:+ dq +:+ td +:+ dq +:+ ">" +:+
                  default "" (info !! "kaltmiete") +:+ "</td>" +:+
                  "<td style=" +:+ dq +:+ td +:+ dq +:+ ">" +:+
                  default "" (info !! "nebenkosten") +:+ "</td>" +:+
                  "<td style=" +:+ dq +:+ td +:+ dq +:+ "><strong>" +:+
                  default "N/A" (info !! "total") +:+
                  "</strong></td>" +:+ "</tr>" +:+ nl) = true →
               Str.contains w
                 (body_head +:+
                  Str.format (N.of_nat (size newly_free_apartments)) +:+
                  body_middle +:+ String.concat "" rows +:+ body_tail) = true)
    as Hbody.
  { intros w Hw. do 3 apply contains_app_r. apply contains_app_l.
    by eapply contains_concat. }
  split.
  - apply Hbody. do 6 apply contains_app_r.
    apply contains_of_prefix, prefix_app_same.
  - exists type. split; [done|]. apply Hbody. do 13 apply contains_app_r.
    apply contains_of_prefix, prefix_app_same.
Qed.

(** ** One check *)

Lemma count_status_is_Some status apartments :
  is_Some (count_status status apartments) ↔
  records_have_status apartments = true.
Proof.
  unfold count_status, records_have_status. rewrite bool_decide_eq_true.
  rewrite map_Forall_to_list. split.
  - intros Hsome.
    assert (is_Some (mapM (λ a : gmap string string, a !! "status")
                       (map_to_list apartments).*2)) as Hm.
    { destruct (mapM _ _); [by eexists|]. by destruct Hsome. }
    apply mapM_is_Some in Hm. rewrite Forall_fmap in Hm.
    eapply Forall_impl; [exact Hm|]. by intros [apt_id info].
  - intros Hall.
    assert (is_Some (mapM (λ a : gmap string string, a !! "status")
                       (map_to_list apartments).*2)) as [statuses ->].
    { apply mapM_is_Some. rewrite Forall_fmap.
      eapply Forall_impl; [exact Hall|]. by intros [apt_id info]. }
    by eexists.
Qed.

Lemma named_bind (e : string * gmap string string) :
  is_Some (name ← e.2 !! "name"; type ← e.2 !! "type"; Some (name, type)) ↔
  named e.2.
Proof.
  unfold named. destruct (e.2 !! "name"), (e.2 !! "type"); simpl;
    split; try (intros [? ?]; done); try (intros [[? ?] [? ?]]; done);
    by (intros _; repeat split; eexists).
Qed.

Lemma bind_unit_is_Some {A} (m : option A) :
  is_Some (_ ← m; Some ()) ↔ is_Some m.
Proof.
  destruct m as [a|]; simpl.
  - split; intros _; by eexists.
  - split; intros [? ?]; done.
Qed.

Lemma log_listing_is_Some status apartments :
  is_Some (log_listing status apartments) ↔
  ∀ apt_id info, apartments !! apt_id = Some info →
                 info !! "status" = Some status → named info.
Proof.
  unfold log_listing. cbv zeta.
  rewrite bind_unit_is_Some.
  rewrite mapM_is_Some, Forall_forall. split.
  - intros H apt_id info Hinfo Hstatus.
    apply (named_bind (apt_id, info)), H, sorted_items_elem_of.
    by apply map_lookup_filter_Some.
  - intros H [apt_id info] Hin. apply named_bind.
    apply sorted_items_elem_of, map_lookup_filter_Some in Hin as [? ?].
    by eapply H.
Qed.


Lemma log_summary_is_Some apartments :
  is_Some (log_summary apartments) ↔
  records_have_status apartments = true ∧
  ∀ apt_id info, apartments !! apt_id = Some info →
    info !! "status" = Some STATUS_FREE ∨
    info !! "status" = Some STATUS_RESERVED → named info.
Proof.
  unfold log_summary.
  pose proof (count_status_is_Some STATUS_FREE apartments) as H1.
  pose proof (count_status_is_Some "unknown" apartments) as H2.
  pose proof (count_status_is_Some STATUS_RESERVED apartments) as H3.
  pose proof (count_status_is_Some STATUS_OCCUPIED apartments) as H4.
  pose proof (log_listing_is_Some STATUS_FREE apartments) as H5.
  pose proof (log_listing_is_Some STATUS_RESERVED apartments) as H6.
  destruct (records_have_status apartments).
  - destruct H1 as [_ [? ->]]; [done|]. destruct H2 as [_ [? ->]]; [done|].
    destruct H3 as [_ [? ->]]; [done|]. destruct H4 as [_ [? ->]]; [done|].
    simpl. destruct (log_listing STATUS_FREE apartments) as [[]|]; simpl.
    + rewrite H6. split.
      * intros Hres. split; [done|]. intros apt_id info Hinfo [Hs|Hs].
        -- eapply H5; [by eexists|done|done].
        -- by eapply Hres.
      * intros [_ H] apt_id info Hinfo Hs. eapply H; [done|by right].
    + split; [by intros [? ?]|]. intros [_ H].
      apply H5. intros apt_id info Hinfo Hs. eapply H; [done|by left].
  - destruct (count_status STATUS_FREE apartments) eqn:Hc.
    + destruct H1 as [H1 _]. by specialize (H1 (ex_intro _ _ eq_refl)).
    + simpl. split; [by intros [? ?]|by intros [? _]].
Qed.

Section Check.

Variable config : gmap string pyval.


(** X15.  A message is sent only when a previous snapshot exists, the check
    is not the first run and the delta is not empty; its subject and body
    are those built from the delta, and the server accepted it. *)
Theorem sent_only_for_delta (first_run : bool) (fetch : fetched)
    (deliver : message → bool)
    (state : option (gmap string (gmap string string))) (m : message) :
  sent (check_availability config first_run fetch deliver state) = Some m →
  first_run = false ∧
  ∃ previous apartments delta,
    state = Some previous ∧ fetch = Fetched apartments ∧
    find_newly_available (Some previous) apartments = Some delta ∧
    delta ≠ ∅ ∧
    build_availability_email delta = Some (msg_subject m, msg_html m) ∧
    msg_plain m = plain_text (msg_html m) ∧
    deliver m = true.
Proof.
  unfold check_availability. cbv zeta.
  destruct fetch as [|apartments]; [done|].
  destruct (decide (apartments = ∅)); [done|].
  destruct (log_summary apartments); [|done].
  destruct first_run; [done|].
  destruct (find_newly_available state apartments) as [delta|] eqn:Hdelta;
    [|done].
  destruct (decide (delta = ∅)) as [|Hne]; [done|].
  destruct (log_delta delta); [|done]. cbn [sent].
  unfold notify_available. rewrite decide_False by done.
  destruct (build_availability_email delta) as [[subject body_html]|]
    eqn:Hbuild; [|done].
  destruct (config !! "SMTP_HOST"), (config !! "SMTP_PORT"),
    (config !! "EMAIL_FROM"), (config !! "EMAIL_PASSWORD"),
    (config !! "EMAIL_TO"); try done.
  match goal with |- context [py_int ?port] => destruct (py_int port) end;
    [|done].
  match goal with |- context [deliver ?msg] => destruct (deliver msg) eqn:Hd end;
    [|done].
  intros [= <-]. split; [done|].
  destruct state as [previous|]; [|simpl in Hdelta; congruence].
  exists previous, apartments, delta. by cbn.
Qed.

(** X16.  What a check persists, and whether it raises, does not depend on
    the delivery of the message. *)
Theorem persistence_ignores_delivery (first_run : bool) (fetch : fetched)
    (deliver1 deliver2 : message → bool)
    (state : option (gmap string (gmap string string))) :
  state_file (check_availability config first_run fetch deliver1 state) =
  state_file (check_availability config first_run fetch deliver2 state) ∧
  raised (check_availability config first_run fetch deliver1 state) =
  raised (check_availability config first_run fetch deliver2 state).
Proof.
  unfold check_availability. cbv zeta.
  destruct fetch as [|apartments]; [done|].
  destruct (decide (apartments = ∅)); [done|].
  destruct (log_summary apartments); [|done].
  destruct first_run; [done|].
  destruct (find_newly_available state apartments) as [delta|]; [|done].
  destruct (decide (delta = ∅)); [done|].
  by destruct (log_delta delta).
Qed.

Lemma find_newly_available_same S :
  records_have_status S = true → find_newly_available (Some S) S = Some ∅.
Proof.
  intros HS. rewrite (find_newly_available_filter _ _ HS). f_equal.
  apply map_empty_filter. intros apt_id info Hinfo [Hav Hwas].
  simpl in Hav, Hwas.
  destruct (records_have_status_lookup _ _ _ HS Hinfo) as [status Hstatus].
  apply (was_unavailable_status _ _ _ _ Hinfo Hstatus) in Hwas.
  rewrite (is_available_status _ _ Hstatus) in Hav.
  destruct Hwas as [-> | ->]; by vm_compute in Hav.
Qed.

(** X17.  When a check has completed on a page with listings, a further
    check that fetches the same snapshot sends nothing and leaves that
    snapshot in the state file. *)
Theorem same_page_sends_nothing (first_run : bool)
    (apartments : gmap string (gmap string string))
    (deliver1 deliver2 : message → bool)
    (state : option (gmap string (gmap string string))) :
  apartments ≠ ∅ →
  raised (check_availability config first_run (Fetched apartments) deliver1
            state) = false →
  check_availability config false (Fetched apartments) deliver2
    (state_file (check_availability config first_run (Fetched apartments)
                   deliver1 state)) =
  {| raised := false; state_file := Some apartments; sent := None |}.
Proof.
  intros Hne.
  assert (is_Some (log_summary apartments) →
          check_availability config false (Fetched apartments) deliver2
            (Some apartments) =
          {| raised := false; state_file := Some apartments; sent := None |})
    as Hsecond.
  { intros Hlog. unfold check_availability. cbv zeta.
    rewrite decide_False by done.
    pose proof (proj1 (log_summary_is_Some apartments) Hlog) as [HS _].
    destruct Hlog as [[] ->].
    rewrite (find_newly_available_same _ HS). by rewrite decide_True. }
  unfold check_availability at 1 3. cbv zeta.
  rewrite decide_False by done.
  destruct (log_summary apartments) as [[]|] eqn:Hlog; [|done].
  specialize (Hsecond (ex_intro _ _ eq_refl)).
  destruct first_run; [done|].
  destruct (find_newly_available state apartments) as [delta|]; [|done].
  destruct (decide (delta = ∅)); [done|].
  by destruct (log_delta delta).
Qed.

End Check.




Lemma status_of_four (_html5 : gmap string string) classes data_text :
  status_of _html5 classes data_text ∈
  [STATUS_FREE; "unknown"; STATUS_RESERVED; STATUS_OCCUPIED].
Proof.
  unfold status_of, _detect_status, _detect_status_from_data_text.
  rewrite !elem_of_cons. repeat (case_match; try tauto).
Qed.

Lemma four_counts_add_up (statuses : list string) :
  Forall (λ s, s ∈ [STATUS_FREE; "unknown"; STATUS_RESERVED; STATUS_OCCUPIED])
    statuses →
  (length (filter (λ s, s = STATUS_FREE) statuses) +
   length (filter (λ s, s = "unknown") statuses) +
   length (filter (λ s, s = STATUS_RESERVED) statuses) +
   length (filter (λ s, s = STATUS_OCCUPIED) statuses))%nat
  = length statuses.
Proof.
  induction 1 as [|s statuses Hs _ IH]; [done|].
  rewrite !elem_of_cons, elem_of_nil in Hs.
  rewrite !filter_cons.
  destruct Hs as [->|[->|[->|[->|[]]]]];
    repeat (destruct (decide _) as [?|?]; try discriminate; try done);
    simpl; lia.
Qed.

(** X19.  On a parsed page the four counts of the summary line add up to the
    number of apartments. *)
Theorem status_counts_add_up (_html5 : gmap string string)
    (apt_links : list element) :
  let apartments := parse_apartments _html5 apt_links in
  ∃ free_count unknown_count reserved_count occupied_count,
    count_status STATUS_FREE apartments = Some free_count ∧
    count_status "unknown" apartments = Some unknown_count ∧
    count_status STATUS_RESERVED apartments = Some reserved_count ∧
    count_status STATUS_OCCUPIED apartments = Some occupied_count ∧
    (free_count + unknown_count + reserved_count + occupied_count)%nat
    = size apartments.
Proof.
  intros apartments. unfold count_status.
  destruct (mapM (λ a : gmap string string, a !! "status")
              (map_to_list apartments).*2) as [statuses|] eqn:Hm.
  - simpl. do 4 eexists. repeat (split; [reflexivity|]).
    rewrite four_counts_add_up.
    + apply length_mapM in Hm. rewrite <- Hm, length_fmap.
      apply length_map_to_list.
    + apply mapM_Some in Hm. apply Forall_forall. intros s Hs.
      apply list_elem_of_lookup in Hs as [i Hi].
      destruct (Forall2_lookup_r _ _ _ _ _ Hm Hi) as (a & Ha & Hstatus).
      assert (a ∈ (map_to_list apartments).*2) as Hin
        by (apply list_elem_of_lookup; by exists i).
      apply list_elem_of_fmap in Hin as ([k a'] & -> & Hk).
      apply elem_of_map_to_list, parse_apartments_inv in Hk
        as (link & _ & _ & Hk).
      simpl in Hstatus. rewrite Hk, apartment_info_status in Hstatus.
      injection Hstatus as <-. apply status_of_four.
  - exfalso.
    assert (is_Some (count_status STATUS_FREE apartments)) as [n Hn]
      by apply count_status_is_Some, parse_apartments_have_status.
    unfold count_status in Hn. by rewrite Hm in Hn.
Qed.

(** ** Configuration *)





(** ** Titles without a number suffix *)










(** ** The properties on the sample check *)

Lemma email_names_every_apartment_witness :
  match build_availability_email
          (parse_apartments html5_sample [link_0_1_free]) with
  | Some (subject, body_html) =>
      Str.contains "0.1" body_html = true ∧
      ∃ type,
        apartment_info html5_sample link_0_1_free !! "type" = Some type ∧
        Str.contains type body_html = true
  | None => False
  end.
Proof.
  destruct (build_availability_email
              (parse_apartments html5_sample [link_0_1_free]))
    as [[subject body_html]|] eqn:Hbuild.
  - apply (email_names_every_apartment _ subject body_html "0.1" _ Hbuild).
    vm_compute. reflexivity.
  - vm_compute in Hbuild. discriminate Hbuild.
Defined.

Lemma sent_only_for_delta_witness :
  match sent sample_check with
  | Some m => msg_plain m = plain_text (msg_html m)
  | None => False
  end.
Proof.
  destruct (sent sample_check) as [m|] eqn:Hsent.
  - unfold sample_check in Hsent.
    by destruct (sent_only_for_delta _ _ _ _ _ _ Hsent)
      as (_ & ? & ? & ? & _ & _ & _ & _ & _ & ? & _).
  - vm_compute in Hsent. discriminate Hsent.
Defined.

Lemma same_page_sends_nothing_witness :
  check_availability sample_config false
    (Fetched (parse_apartments html5_sample [link_0_1_free])) (λ _, false)
    (state_file sample_check) =
  {| raised := false;
     state_file := Some (parse_apartments html5_sample [link_0_1_free]);
     sent := None |}.
Proof.
  apply (same_page_sends_nothing sample_config false
           (parse_apartments html5_sample [link_0_1_free])
           (λ _, true) (λ _, false)
           (Some (parse_apartments html5_sample [link_0_1]))).
  - intros H.
    pose proof (parse_apartments_lookup html5_sample [link_0_1_free] "0.1")
      as Hlookup.
    rewrite H, lookup_empty in Hlookup. cbn [Str.truthy first_link] in Hlookup.
    by rewrite decide_True in Hlookup.
  - vm_compute. reflexivity.
Defined.

(** ** The run *)

Lemma check_state_file config first_run fetch deliver state :
  raised (check_availability config first_run fetch deliver state) = false →
  state_file (check_availability config first_run fetch deliver state)
  = next_state state fetch.
Proof.
  unfold check_availability, next_state. cbv zeta.
  destruct fetch as [|apartments]; [done|].
  destruct (decide (apartments = ∅)); [done|].
  destruct (log_summary apartments); [|done].
  destruct first_run; [done|].
  destruct (find_newly_available state apartments) as [delta|]; [|done].
  destruct (decide (delta = ∅)); [done|].
  by destruct (log_delta delta).
Qed.




(** X22.  When no exception ended a run of checks, the state file holds at
    its end the last snapshot with listings that the run fetched, or what
    it held at the start when no fetch gave one. *)
Theorem run_leaves_last_page (config : gmap string pyval) (first_run : bool)
    (ticks : list (fetched * (message → bool)))
    (state : option (gmap string (gmap string string))) :
  crashed (checks config first_run ticks state) = false →
  final_state (checks config first_run ticks state)
  = last_page ticks.*1 state.
Proof.
  revert first_run state.
  induction ticks as [|[fetch deliver] ticks IH]; intros first_run state;
    [done|].
  cbn [checks]. cbv zeta.
  destruct (raised (check_availability config first_run fetch deliver state))
    eqn:Hraised; [done|].
  cbn [crashed final_state]. intros Hrest.
  rewrite (IH _ _ Hrest), (check_state_file _ _ _ _ _ Hraised). done.
Qed.

Lemma run_leaves_last_page_witness :
  let ticks := [(Fetched (parse_apartments html5_sample [link_0_1]), λ _, true);
                (FetchError, λ _, true);
                (Fetched ∅, λ _, true)] in
  crashed (checks sample_config true ticks None) = false ∧
  final_state (checks sample_config true ticks None)
  = last_page ticks.*1 None.
Proof.
  cbv zeta. split; [vm_compute; reflexivity|].
  apply run_leaves_last_page. vm_compute. reflexivity.
Defined.



(** ** The port *)



